(** * TrafficAnalyzer: a shallow embedding of [advanced_traffic_analyzer.py]

    The development follows the source file top-down: the Python primitives
    the program relies on ([str.split], [str.upper], [int], [Counter],
    [sorted]), then [human_readable_bytes], [parse_log_line],
    [matches_filters], the [TrafficAnalyzer] class, and the two-pass driver
    ([find_max_timestamp], [process_file], [main]).

    Modelling conventions.
    - Python integers are unbounded: [Z].
    - Strings are sequences of ASCII characters ([string]); the parser's
      notions of whitespace, digit and upper case are the ASCII ones.
    - A [Counter] is an insertion-ordered dictionary: an association list in
      which a new key is appended and an existing key is updated in place.
    - A [set] is unordered: [gset].
    - Exceptions are explicit: a computation returns [Ok v] or [Raise e].
    - A file is the list of its lines.
    - The rendering of the report is modelled on the inputs for which the
      library code under it returns: byte sums below [2 ^ 53] in absolute
      value, on which binary floating point holds the integers exactly,
      and hourly timestamps within the years 1 to 9999 of [datetime]. The
      statements about the printed report carry this range as a
      hypothesis ([report_renders]). *)

From Stdlib Require Import ZArith Lia Ascii String Permutation Sorted.
From stdpp Require Import base decidable option list strings gmap sets pretty sorting.

Open Scope string_scope.
Open Scope Z_scope.

(** ** Exceptions *)

Inductive exn : Type := ValueError | IndexError.

Inductive result (A : Type) : Type :=
| Ok (a : A)
| Raise (e : exn).
Arguments Ok {A} a.
Arguments Raise {A} e.

Definition bind {A B : Type} (m : result A) (k : A -> result B) : result B :=
  match m with
  | Ok a => k a
  | Raise e => Raise e
  end.

Notation "x <-- m ;; k" := (bind m (fun x => k))
  (at level 100, m at next level, right associativity).

(** [try: body except ValueError: handler] *)
Definition try_except_ValueError {A : Type} (body : result A) (handler : result A)
  : result A :=
  match body with
  | Raise ValueError => handler
  | other => other
  end.

(** ** Python primitives *)

Module Py.

(** [str.isspace] on one ASCII character: TAB, LF, VT, FF, CR, the four
    separators FS, GS, RS, US, and the space. *)
Definition isspace (c : ascii) : bool :=
  let n := Z.of_nat (nat_of_ascii c) in
  ((9 <=? n) && (n <=? 13)) || ((28 <=? n) && (n <=? 32)).

Fixpoint lstrip (s : string) : string :=
  match s with
  | String c s' => if isspace c then lstrip s' else s
  | EmptyString => EmptyString
  end.

Definition rstrip (s : string) : string :=
  String.rev (lstrip (String.rev s)).

(** [s.strip()] *)
Definition strip (s : string) : string := rstrip (lstrip s).

(** [s.split()] with no separator: maximal runs of non-whitespace. The
    second argument is the token being read, if any. *)
Fixpoint split_from (s : string) (tok : option string) : list string :=
  match s with
  | EmptyString =>
      match tok with
      | Some t => [t]
      | None => []
      end
  | String c s' =>
      if isspace c then
        match tok with
        | Some t => t :: split_from s' None
        | None => split_from s' None
        end
      else
        split_from s' (Some (default EmptyString tok +:+ String c EmptyString))
  end.

Definition split (s : string) : list string := split_from s None.

(** [s.upper()] *)
Definition upper_char (c : ascii) : ascii :=
  let n := nat_of_ascii c in
  if ((97 <=? n) && (n <=? 122))%nat then ascii_of_nat (n - 32) else c.

Fixpoint upper (s : string) : string :=
  match s with
  | EmptyString => EmptyString
  | String c s' => String (upper_char c) (upper s')
  end.

Definition digit_value (c : ascii) : option Z :=
  let n := Z.of_nat (nat_of_ascii c) in
  if (48 <=? n) && (n <=? 57) then Some (n - 48) else None.

(** The whitespace [int] skips around a number: TAB, LF, VT, FF, CR and the
    space. The four separators FS, GS, RS, US, which [str.isspace] accepts,
    are not skipped. *)
Definition isspace_int (c : ascii) : bool :=
  let n := Z.of_nat (nat_of_ascii c) in
  ((9 <=? n) && (n <=? 13)) || (n =? 32).

Fixpoint lstrip_int (s : string) : string :=
  match s with
  | String c s' => if isspace_int c then lstrip_int s' else s
  | EmptyString => EmptyString
  end.

Fixpoint only_isspace_int (s : string) : bool :=
  match s with
  | EmptyString => true
  | String c s' => isspace_int c && only_isspace_int s'
  end.

(** The digit part of an integer literal: decimal digits, where a single
    underscore may stand between two digits, followed by whitespace only.
    [after_digit] tells whether the previous character was a digit. *)
Fixpoint int_digits (s : string) (acc : Z) (after_digit : bool) : option Z :=
  match s with
  | EmptyString => if after_digit then Some acc else None
  | String c s' =>
      match digit_value c with
      | Some d => int_digits s' (10 * acc + d) true
      | None =>
          if Ascii.eqb c "_"%char && after_digit
          then int_digits s' acc false
          else if after_digit && only_isspace_int s then Some acc else None
      end
  end.

(** The number of digits of a literal, and the largest number of digits
    [int] converts ([sys.int_max_str_digits], 4300 unless configured). *)
Fixpoint digit_count (s : string) : Z :=
  match s with
  | EmptyString => 0
  | String c s' =>
      match digit_value c with
      | Some _ => 1 + digit_count s'
      | None => digit_count s'
      end
  end.

Definition int_max_str_digits : Z := 4300.

Definition int_unsigned (d : string) : result Z :=
  match int_digits d 0 false with
  | Some n => if int_max_str_digits <? digit_count d then Raise ValueError else Ok n
  | None => Raise ValueError
  end.

(** [int(s)] for a string argument, base 10: leading whitespace, one
    optional sign, the digits, trailing whitespace; anything else, and a
    literal of more than [int_max_str_digits] digits, raises
    [ValueError]. *)
Definition int (s : string) : result Z :=
  match lstrip_int s with
  | String c d =>
      if Ascii.eqb c "+"%char then int_unsigned d
      else if Ascii.eqb c "-"%char then n <-- int_unsigned d ;; Ok (- n)
      else int_unsigned (String c d)
  | EmptyString => Raise ValueError
  end.

(** [l[i]] *)
Definition getitem {A : Type} (l : list A) (i : nat) : result A :=
  match l !! i with
  | Some a => Ok a
  | None => Raise IndexError
  end.

(** Truthiness of an optional integer ([None] and [0] are falsy) and of an
    optional string ([None] and the empty string are falsy). A tuple is
    never empty here, so an optional pair is truthy exactly when it is not
    [None]. *)
Definition truthy_int (o : option Z) : bool :=
  match o with
  | Some n => negb (n =? 0)
  | None => false
  end.

Definition truthy_str (o : option string) : bool :=
  match o with
  | Some s => negb (String.eqb s EmptyString)
  | None => false
  end.

(** [c in s] for a one-character string [c]. *)
Fixpoint contains (c : ascii) (s : string) : bool :=
  match s with
  | EmptyString => false
  | String c' s' => Ascii.eqb c' c || contains c s'
  end.

(** [s.split(c, 1)] for a one-character separator: the text before the
    first [c] and the text after it, or [s] alone when [c] does not
    occur. *)
Fixpoint split_once (c : ascii) (s : string) : list string :=
  match s with
  | EmptyString => [EmptyString]
  | String c' s' =>
      if Ascii.eqb c' c then [EmptyString; s']
      else
        match split_once c s' with
        | head :: tail => String c' head :: tail
        | [] => [String c' EmptyString]
        end
  end.

(** [x, y = l]: unpacking into two names raises [ValueError] unless [l] has
    exactly two items. *)
Definition unpack2 {A : Type} (l : list A) : result (A * A) :=
  match l with
  | [x; y] => Ok (x, y)
  | _ => Raise ValueError
  end.

End Py.

(** ** [collections.Counter] *)

Module Counter.

Section Defs.
Context {K : Type} `{EqDecision K}.

Definition t : Type := list (K * Z).

(** [c[k] += 1]: a key already present keeps its position, a new key is
    appended with count 1. *)
Fixpoint incr (k : K) (c : t) : t :=
  match c with
  | [] => [(k, 1)]
  | (k', n) :: c' =>
      if decide (k = k') then (k', n + 1) :: c' else (k', n) :: incr k c'
  end.

(** [c.get(k, 0)] *)
Fixpoint get (k : K) (c : t) : Z :=
  match c with
  | [] => 0
  | (k', n) :: c' => if decide (k = k') then n else get k c'
  end.

(** [sum(c.values())] *)
Definition total (c : t) : Z := foldr (fun kv acc => kv.2 + acc) 0 c.

(** [c.keys()], in insertion order *)
Definition keys (c : t) : list K := c.*1.

(** Insertion of [x] into a list sorted by descending count: [x] passes
    the entries with a larger count and stops in front of the first entry
    whose count is at most its own. *)
Fixpoint insert_desc (x : K * Z) (l : list (K * Z)) : list (K * Z) :=
  match l with
  | [] => [x]
  | y :: l' => if x.2 <? y.2 then y :: insert_desc x l' else x :: y :: l'
  end.

(** [sorted(c.items(), key=lambda x: x[1], reverse=True)]: a stable sort
    by descending count. *)
Definition sorted_desc (c : t) : list (K * Z) := foldr insert_desc [] c.

(** [c.most_common(n)]: the [n] first entries of the stable descending
    sort. *)
Definition most_common (n : Z) (c : t) : list (K * Z) :=
  take (Z.to_nat n) (sorted_desc c).

End Defs.

Arguments t K : clear implicits.

End Counter.

(** ** Fixed-point rendering of a quotient

    [format_2f n d] is what [f"{x:.2f}"] prints for the number [x = n / d]
    ([0 < d]): the nearest multiple of 1/100, a tie going to the even one,
    with the sign of [x]. In [human_readable_bytes] the quotient is an
    integer over a power of 1024; a binary64 float holds it exactly as long
    as the integer is below [2^53] in absolute value. *)

Definition round_half_even (n d : Z) : Z :=
  let q := n / d in
  let r := n mod d in
  if 2 * r <? d then q
  else if d <? 2 * r then q + 1
  else if Z.even q then q else q + 1.

Definition two_digits (k : Z) : string :=
  if k <? 10 then "0" +:+ pretty k else pretty k.

Definition format_2f (n d : Z) : string :=
  let c := Z.abs (round_half_even (100 * n) d) in
  (if n <? 0 then "-" else "") +:+ pretty (c / 100) +:+ "." +:+ two_digits (c mod 100).

(** ** [human_readable_bytes] *)

Definition units : list string := ["B"; "KB"; "MB"; "GB"; "TB"].

(** The loop over the units; the running value of [num] is [n / d], kept
    as an exact quotient. The code holds it in binary floating point, which
    is the same value for [Z.abs num < 2 ^ 53]; far beyond that range the
    division of the code raises [OverflowError]. A loop that ran off the
    list would return [None], which an f-string prints as the word None. *)
Fixpoint human_readable_loop (us : list string) (n d : Z) : string :=
  match us with
  | [] => "None"
  | unit :: rest =>
      if (n <? 1024 * d) || String.eqb unit "TB"
      then format_2f n d +:+ " " +:+ unit
      else human_readable_loop rest n (d * 1024)
  end.

Definition human_readable_bytes (num : Z) : string :=
  human_readable_loop units num 1.

(** ** Records and filter settings *)

(** The 6-tuple returned by [parse_log_line]. *)
Record record : Type := mkRecord {
  timestamp : Z;
  ip : string;
  method : string;
  url : string;
  status : Z;
  size_ : Z
}.

(** The validated [args] namespace handed over by [parse_args]. *)
Record args : Type := mkArgs {
  args_method : option string;
  args_status_filter : option (Z * Z);
  args_start : option Z;
  args_end : option Z;
  args_top : Z
}.

(** ** [parse_args]: the checks on the command line

    [argparse] itself is library code; the checks start from the namespace
    it returns. [--start], [--end] and [--top] arrive as integers,
    [--method] and [--status] as text. The two tests on the file system,
    [os.path.isfile] and [os.access(_, os.R_OK)], are parameters. *)

Definition ALLOWED_METHODS : list string :=
  ["GET"; "POST"; "PUT"; "DELETE"; "PATCH"; "HEAD"; "OPTIONS"].

Record namespace : Type := mkNamespace {
  ns_logfile : string;
  ns_method : option string;
  ns_status : option string;
  ns_start : option Z;
  ns_end : option Z;
  ns_top : Z
}.

(** [parse_args] returns the checked arguments, or writes one line to the
    error stream and leaves through [sys.exit]. *)
Inductive validation : Type :=
| Accepted (a : args)
| Exit (code : Z) (message : string).

(** The body of the [try] for a status of the form [low-high]. *)
Definition parse_status_range (s : string) : result (Z * Z) :=
  lh <-- Py.unpack2 (Py.split_once "-"%char s) ;;
  low_i <-- Py.int lh.1 ;;
  high_i <-- Py.int lh.2 ;;
  if high_i <? low_i then Raise ValueError else Ok (low_i, high_i).

(** [args.status_filter], or the message of the failing branch; both
    handlers are [except Exception]. *)
Definition status_filter_of (status : option string) : string + option (Z * Z) :=
  if Py.truthy_str status then
    if Py.contains "-"%char (default "" status) then
      match parse_status_range (default "" status) with
      | Ok range => inr (Some range)
      | Raise _ => inl "Error: invalid --status range (use 400-499)"
      end
    else
      match Py.int (default "" status) with
      | Ok code => inr (Some (code, code))
      | Raise _ => inl "Error: invalid --status value"
      end
  else inr None.

Definition parse_args (isfile readable : string -> bool) (ns : namespace) : validation :=
  if negb (isfile (ns_logfile ns)) then
    Exit 1 ("Error: file not found: " +:+ ns_logfile ns)
  else if negb (readable (ns_logfile ns)) then
    Exit 1 ("Error: cannot read file: " +:+ ns_logfile ns)
  else
    let method :=
      if Py.truthy_str (ns_method ns) then Py.upper <$> ns_method ns
      else ns_method ns in
    if Py.truthy_str (ns_method ns)
       && negb (bool_decide (default "" method ∈ ALLOWED_METHODS))
    then Exit 1 ("Error: unsupported HTTP method: " +:+ default "" method)
    else
      match status_filter_of (ns_status ns) with
      | inl message => Exit 1 message
      | inr status_filter =>
          if Py.truthy_int (ns_start ns) && Py.truthy_int (ns_end ns)
             && (default 0 (ns_end ns) <? default 0 (ns_start ns))
          then Exit 1 "Error: --start must be <= --end"
          else if ns_top ns <=? 0 then Exit 1 "Error: --top must be positive"
          else Accepted (mkArgs method status_filter (ns_start ns) (ns_end ns)
                           (ns_top ns))
      end.

(** ** [parse_log_line] *)

Definition parts_of (line : string) : list string := Py.split (Py.strip line).

Definition parse_log_line (line : string) : result (option record) :=
  let parts := parts_of line in
  if negb (length parts =? 6)%nat then Ok None
  else
    try_except_ValueError
      (p0 <-- Py.getitem parts 0 ;;
       f0 <-- Py.int p0 ;;
       f1 <-- Py.getitem parts 1 ;;
       p2 <-- Py.getitem parts 2 ;;
       f3 <-- Py.getitem parts 3 ;;
       p4 <-- Py.getitem parts 4 ;;
       f4 <-- Py.int p4 ;;
       p5 <-- Py.getitem parts 5 ;;
       f5 <-- Py.int p5 ;;
       Ok (Some (mkRecord f0 f1 (Py.upper p2) f3 f4 f5)))
      (Ok None).

(** ** [matches_filters] *)

Definition matches_filters (r : record) (a : args) : bool :=
  if Py.truthy_str (args_method a)
     && negb (String.eqb (method r) (default "" (args_method a)))
  then false
  else if match args_status_filter a with
          | Some (low, high) => negb ((low <=? status r) && (status r <=? high))
          | None => false
          end
  then false
  else if Py.truthy_int (args_start a) && (timestamp r <? default 0 (args_start a))
  then false
  else if Py.truthy_int (args_end a) && (default 0 (args_end a) <? timestamp r)
  then false
  else true.

(** ** The [TrafficAnalyzer] class *)

Record TrafficAnalyzer : Type := mkAnalyzer {
  top_n : Z;
  total_requests : Z;
  unique_ips : gset string;
  total_data : Z;
  ip_counter : Counter.t string;
  url_counter : Counter.t string;
  method_counter : Counter.t string;
  success_count : Z;
  client_error_count : Z;
  server_error_count : Z;
  success_size_sum : Z;
  recent_ip_counts : Counter.t string;
  requests_per_hour : Counter.t Z
}.

(** [TrafficAnalyzer(top_n)] *)
Definition new_analyzer (n : Z) : TrafficAnalyzer :=
  {| top_n := n; total_requests := 0; unique_ips := ∅; total_data := 0;
     ip_counter := []; url_counter := []; method_counter := [];
     success_count := 0; client_error_count := 0; server_error_count := 0;
     success_size_sum := 0; recent_ip_counts := []; requests_per_hour := [] |}.

(** [hour_index = (timestamp - cutoff) // 3600] *)
Definition hour_index (r : record) (cutoff : Z) : Z := (timestamp r - cutoff) / 3600.

(** The guard [cutoff and timestamp >= cutoff]. *)
Definition in_recent_window (r : record) (cutoff : option Z) : bool :=
  Py.truthy_int cutoff && (default 0 cutoff <=? timestamp r).

(** The three status tests: [200 <= status < 300], [400 <= status < 500]
    and [500 <= status < 600]. *)
Definition is_2xx (r : record) : bool := (200 <=? status r) && (status r <? 300).
Definition is_4xx (r : record) : bool := (400 <=? status r) && (status r <? 500).
Definition is_5xx (r : record) : bool := (500 <=? status r) && (status r <? 600).

Definition process_record (self : TrafficAnalyzer) (r : record) (cutoff : option Z)
  : TrafficAnalyzer :=
  let is_2xx := is_2xx r in
  let is_4xx := is_4xx r in
  let is_5xx := is_5xx r in
  let h := hour_index r (default 0 cutoff) in
  {| top_n := top_n self;
     total_requests := total_requests self + 1;
     unique_ips := {[ ip r ]} ∪ unique_ips self;
     total_data := total_data self + size_ r;
     ip_counter := Counter.incr (ip r) (ip_counter self);
     url_counter := Counter.incr (url r) (url_counter self);
     method_counter := Counter.incr (method r) (method_counter self);
     success_count :=
       if is_2xx then success_count self + 1 else success_count self;
     success_size_sum :=
       if is_2xx then success_size_sum self + size_ r else success_size_sum self;
     client_error_count :=
       if is_2xx then client_error_count self
       else if is_4xx then client_error_count self + 1
       else client_error_count self;
     server_error_count :=
       if is_2xx then server_error_count self
       else if is_4xx then server_error_count self
       else if is_5xx then server_error_count self + 1
       else server_error_count self;
     requests_per_hour :=
       if in_recent_window r cutoff then
         if (0 <=? h) && (h <? 24)
         then Counter.incr h (requests_per_hour self)
         else requests_per_hour self
       else requests_per_hour self;
     recent_ip_counts :=
       if in_recent_window r cutoff
       then Counter.incr (ip r) (recent_ip_counts self)
       else recent_ip_counts self |}.

(** ** [generate_report] *)

Definition nl : string := String "010"%char EmptyString.

Section Report.

(** Three renderings are done by library code whose result depends on
    binary floating point or on the calendar; the report is parametric in
    them.
    - [format_pct count total] is [f"{count / total * 100:.1f}"];
    - [format_avg sum count] is [f"{sum / count:.2f}"], for [count <> 0];
    - [format_hour ts] is the UTC date of [ts], cut to the hour, printed by
      [strftime("%Y-%m-%dT%H:%MZ")]. *)
Variable format_pct : Z -> Z -> string.
Variable format_avg : Z -> Z -> string.
Variable format_hour : Z -> string.

Definition filter_settings_lines (a : args) : list string :=
  [ match args_start a, args_end a with
    | None, None => "- Time range: all time"
    | s, e =>
        "- Time range: " +:+ from_option pretty "none" s +:+ " - "
                         +:+ from_option pretty "none" e
    end;
    "- Method filter: " +:+
      (if Py.truthy_str (args_method a) then default "" (args_method a)
       else "all methods");
    match args_status_filter a with
    | Some (low, high) =>
        if negb (low =? high)
        then "- Status filter: " +:+ pretty low +:+ "-" +:+ pretty high
        else "- Status filter: " +:+ pretty low
    | None => "- Status filter: all statuses"
    end ].

Definition distribution_lines (self : TrafficAnalyzer) : list string :=
  if total_requests self =? 0 then ["(no data)"]
  else
    (fun mc : string * Z =>
       "- " +:+ mc.1 +:+ ": " +:+ format_pct mc.2 (total_requests self) +:+ "%")
      <$> Counter.sorted_desc (method_counter self).

(** [enumerate(l, 1)] *)
Definition enumerate1 {A : Type} (l : list A) : list (Z * A) :=
  imap (fun i x => (Z.of_nat i + 1, x)) l.

Definition top_ip_lines (self : TrafficAnalyzer) (a : args) : list string :=
  match Counter.most_common (args_top a) (ip_counter self) with
  | [] => ["(no data)"]
  | top_ips =>
      (fun e : Z * (string * Z) =>
         pretty e.1 +:+ ". " +:+ e.2.1 +:+ ": " +:+ pretty e.2.2 +:+ " requests")
        <$> enumerate1 top_ips
  end.

Definition top_url_lines (self : TrafficAnalyzer) : list string :=
  match Counter.most_common 5 (url_counter self) with
  | [] => ["(no data)"]
  | top_urls =>
      (fun e : Z * (string * Z) =>
         pretty e.1 +:+ ". " +:+ e.2.1 +:+ ": " +:+ pretty e.2.2)
        <$> enumerate1 top_urls
  end.

(** [hour_data]: one entry for each [h] in [range(24)]. [format_hour] stands
    for [datetime.fromtimestamp] and [strftime]; the library raises for a
    timestamp outside the years 1 to 9999, so the list is that of the code
    when [cutoff] and [cutoff + 23 * 3600] are within them. *)
Definition hour_data (self : TrafficAnalyzer) (cutoff : Z) : list string :=
  (fun h : nat =>
     "[" +:+ format_hour (cutoff + Z.of_nat h * 3600) +:+ ": "
         +:+ pretty (Counter.get (Z.of_nat h) (requests_per_hour self)) +:+ "]")
    <$> seq 0 24.

Definition recent_activity_lines (self : TrafficAnalyzer) (cutoff : option Z)
  : list string :=
  match cutoff with
  | None =>
      [ "- Unique IPs: 0";
        "- Requests per hour (last 24h): []" ]
  | Some c =>
      [ "- Unique IPs: " +:+ pretty (Z.of_nat (length (recent_ip_counts self)));
        "- Requests per hour (last 24h): " +:+ String.concat ", " (hour_data self c) ]
  end.

Definition report_lines (self : TrafficAnalyzer) (a : args) (cutoff : option Z)
  : list string :=
  [ "====== TRAFFIC ANALYSIS REPORT ======" +:+ nl;
    "Filter settings:" ]
  ++ filter_settings_lines a
  ++ [ "";
       "Basic statistics:";
       "Total requests: " +:+ pretty (total_requests self);
       "Unique IPs: " +:+ pretty (Z.of_nat (size (unique_ips self)));
       "Total data transferred: " +:+ pretty (total_data self)
         +:+ " (" +:+ human_readable_bytes (total_data self) +:+ ")";
       "";
       "Request distribution:" ]
  ++ distribution_lines self
  ++ [ "";
       "Performance metrics:";
       "- Successful requests (2xx): " +:+ pretty (success_count self);
       "- Client errors (4xx): " +:+ pretty (client_error_count self);
       "- Server errors (5xx): " +:+ pretty (server_error_count self);
       "- Average response size (2xx): " +:+
         (if success_count self =? 0 then format_2f 0 1
          else format_avg (success_size_sum self) (success_count self))
         +:+ " bytes";
       "";
       "Top " +:+ pretty (args_top a) +:+ " active IPs:" ]
  ++ top_ip_lines self a
  ++ [ "";
       "Top 5 requested URLs:" ]
  ++ top_url_lines self
  ++ [ "";
       "Recent activity (last 24h):" ]
  ++ recent_activity_lines self cutoff.

Definition generate_report (self : TrafficAnalyzer) (a : args) (cutoff : option Z)
  : string :=
  String.concat nl (report_lines self a cutoff).

(** ** The two-pass driver *)

(** The loop of [find_max_timestamp]; [max_ts] is the running maximum. *)
Fixpoint find_max_from (lines : list string) (a : args) (max_ts : option Z)
  : result (option Z) :=
  match lines with
  | [] => Ok max_ts
  | line :: rest =>
      parsed <-- parse_log_line line ;;
      find_max_from rest a
        match parsed with
        | Some r =>
            if matches_filters r a then
              match max_ts with
              | None => Some (timestamp r)
              | Some m => if m <? timestamp r then Some (timestamp r) else Some m
              end
            else max_ts
        | None => max_ts
        end
  end.

Definition find_max_timestamp (lines : list string) (a : args) : result (option Z) :=
  find_max_from lines a None.

(** The loop of [process_file]: the analyzer so far and the warnings
    written to the error stream so far, the line being read having number
    [line_no]. *)
Fixpoint process_lines (lines : list string) (line_no : Z) (a : args)
    (cutoff : option Z) (analyzer : TrafficAnalyzer) (warnings : list string)
  : result (TrafficAnalyzer * list string) :=
  match lines with
  | [] => Ok (analyzer, warnings)
  | line :: rest =>
      parsed <-- parse_log_line line ;;
      match parsed with
      | None =>
          process_lines rest (line_no + 1) a cutoff analyzer
            (warnings ++ ["Warning: invalid format at line " +:+ pretty line_no])
      | Some r =>
          process_lines rest (line_no + 1) a cutoff
            (if matches_filters r a then process_record analyzer r cutoff
             else analyzer)
            warnings
      end
  end.

Definition process_file (lines : list string) (a : args) (cutoff : option Z)
  : result (TrafficAnalyzer * list string) :=
  process_lines lines 1 a cutoff (new_analyzer (args_top a)) [].

(** What a run leaves behind: the text printed on the standard output, the
    lines written to the error stream, and the exit status. *)
Record outcome : Type := mkOutcome {
  stdout : string;
  stderr : list string;
  exit_status : Z
}.

(** [main], from the validated arguments and the lines of the log file.
    The result is that of the code on the inputs whose report the library
    renders (see [hour_data] and [human_readable_bytes]). *)
Definition main (a : args) (lines : list string) : result outcome :=
  max_ts <-- find_max_timestamp lines a ;;
  match max_ts with
  | None =>
      Ok {| stdout := generate_report (new_analyzer (args_top a)) a None;
            stderr := ["No valid records matched the filters."];
            exit_status := 0 |}
  | Some m =>
      let cutoff := m - 86400 in
      aw <-- process_file lines a (Some cutoff) ;;
      Ok {| stdout := generate_report aw.1 a (Some cutoff);
            stderr := aw.2;
            exit_status := 0 |}
  end.

End Report.

(** * Notions used in the statements *)

(** The record a line stands for, if any: [parse_log_line] without its
    exception layer. *)
Definition parsed (line : string) : option record :=
  match parse_log_line line with
  | Ok v => v
  | Raise _ => None
  end.

(** A sequence of [process_record] calls, each with its own cutoff. *)
Definition process_calls (calls : list (record * option Z)) (s : TrafficAnalyzer)
  : TrafficAnalyzer :=
  foldl (fun acc call => process_record acc call.1 call.2) s calls.

(** The status lies in 2xx, 4xx or 5xx. *)
Definition status_bucketed (r : record) : bool := is_2xx r || is_4xx r || is_5xx r.

Definition unbucketed_calls (calls : list (record * option Z)) : Z :=
  Z.of_nat (length (filter (fun call => status_bucketed call.1 = false) calls)).

(** The records of the file that parse and pass the filters, in file
    order. *)
Definition matching (lines : list string) (a : args) : list record :=
  omap (fun line => r ← parsed line; if matches_filters r a then Some r else None) lines.

(** One step of the running maximum of [find_max_timestamp]. *)
Definition max_step (max_ts : option Z) (ts : Z) : option Z :=
  match max_ts with
  | None => Some ts
  | Some m => if m <? ts then Some ts else Some m
  end.

(** The aggregation pass is a fold of [process_record] over the matching
    records. *)
Definition aggregate (rs : list record) (cutoff : option Z) (s : TrafficAnalyzer)
  : TrafficAnalyzer :=
  foldl (fun acc r => process_record acc r cutoff) s rs.

(** Two counters that give every key the same count. *)
Definition same_counts {K : Type} `{EqDecision K} (c c' : Counter.t K) : Prop :=
  forall k, Counter.get k c = Counter.get k c'.

(** Two analyzer states that agree on every scalar, on the set of addresses
    and, key by key, on every counter. *)
Record agree (s s' : TrafficAnalyzer) : Prop := mkAgree {
  agree_top_n : top_n s = top_n s';
  agree_total_requests : total_requests s = total_requests s';
  agree_unique_ips : unique_ips s = unique_ips s';
  agree_total_data : total_data s = total_data s';
  agree_ip_counter : same_counts (ip_counter s) (ip_counter s');
  agree_url_counter : same_counts (url_counter s) (url_counter s');
  agree_method_counter : same_counts (method_counter s) (method_counter s');
  agree_success_count : success_count s = success_count s';
  agree_client_error_count : client_error_count s = client_error_count s';
  agree_server_error_count : server_error_count s = server_error_count s';
  agree_success_size_sum : success_size_sum s = success_size_sum s';
  agree_recent_ip_counts : same_counts (recent_ip_counts s) (recent_ip_counts s');
  agree_requests_per_hour : same_counts (requests_per_hour s) (requests_per_hour s')
}.

(** A counter built by [incr] has each key once and only positive counts;
    two such counters with the same counts hold the same entries. *)
Definition counter_wf {K : Type} `{EqDecision K} (c : Counter.t K) : Prop :=
  NoDup (Counter.keys c) /\ forall k n, (k, n) ∈ c -> 0 < n.

Record analyzer_wf (s : TrafficAnalyzer) : Prop := mkWf {
  wf_ip_counter : counter_wf (ip_counter s);
  wf_url_counter : counter_wf (url_counter s);
  wf_method_counter : counter_wf (method_counter s);
  wf_recent_ip_counts : counter_wf (recent_ip_counts s);
  wf_requests_per_hour : counter_wf (requests_per_hour s)
}.

(** Two final states that are the same up to the order in which the
    counters list their entries. *)
Record same_state (s s' : TrafficAnalyzer) : Prop := mkSame {
  same_top_n : top_n s = top_n s';
  same_total_requests : total_requests s = total_requests s';
  same_unique_ips : unique_ips s = unique_ips s';
  same_total_data : total_data s = total_data s';
  same_success_count : success_count s = success_count s';
  same_client_error_count : client_error_count s = client_error_count s';
  same_server_error_count : server_error_count s = server_error_count s';
  same_success_size_sum : success_size_sum s = success_size_sum s';
  same_ip_counter :
    ip_counter s ≡ₚ ip_counter s' /\ same_counts (ip_counter s) (ip_counter s');
  same_url_counter :
    url_counter s ≡ₚ url_counter s' /\ same_counts (url_counter s) (url_counter s');
  same_method_counter :
    method_counter s ≡ₚ method_counter s'
    /\ same_counts (method_counter s) (method_counter s');
  same_recent_ip_counts :
    recent_ip_counts s ≡ₚ recent_ip_counts s'
    /\ same_counts (recent_ip_counts s) (recent_ip_counts s');
  same_requests_per_hour :
    requests_per_hour s ≡ₚ requests_per_hour s'
    /\ same_counts (requests_per_hour s) (requests_per_hour s')
}.

(** The keys of a stream in the order of their first appearance. *)
Definition note_key {K : Type} `{EqDecision K} (seen : list K) (k : K) : list K :=
  if decide (k ∈ seen) then seen else (seen ++ [k])%list.

Definition first_seen {K : Type} `{EqDecision K} (l : list K) : list K :=
  foldl note_key [] l.

(** A token: a text that is not empty and holds no whitespace. *)
Definition token (t : string) : Prop :=
  t <> "" /\ forall c, Py.contains c t = true -> Py.isspace c = false.

(** The warnings of the aggregation pass over [lines], the first of which
    has number [line_no]: one for each line that does not parse. *)
Definition warnings_from (line_no : Z) (lines : list string) : list string :=
  omap (fun e : Z * string =>
          match parsed e.2 with
          | None => Some ("Warning: invalid format at line " +:+ pretty e.1)
          | Some _ => None
          end)
       (imap (fun i line => (Z.of_nat i + line_no, line)) lines).

(** The lines that parse and are turned down by the filters. *)
Definition filtered_out (lines : list string) (a : args) : list string :=
  filter (fun line => match parsed line with
                      | Some r => negb (matches_filters r a)
                      | None => false
                      end = true) lines.

(** The number of records of [rs] on which the test [p] holds, and the sum
    of a quantity over the records of [rs]. *)
Definition count_if (p : record -> bool) (rs : list record) : Z :=
  Z.of_nat (length (filter (fun r => p r = true) rs)).

Definition sum_of (f : record -> Z) (rs : list record) : Z :=
  foldr (fun r acc => f r + acc) 0 rs.

(** The two guards in front of [requests_per_hour]: the record is in the
    recent window and its hour index is one of 0..23. *)
Definition in_hour_bucket (cutoff : option Z) (r : record) : bool :=
  in_recent_window r cutoff
  && ((0 <=? hour_index r (default 0 cutoff)) && (hour_index r (default 0 cutoff) <? 24)).

(** A text made of whitespace only (the empty text included). *)
Fixpoint only_whitespace (s : string) : bool :=
  match s with
  | EmptyString => true
  | String c s' => Py.isspace c && only_whitespace s'
  end.

(** ** The inputs on which the report is printed

    [generate_report] calls library code that raises outside a range the
    rendering parameters do not show: [str] of an integer of more than 4300
    digits, the conversion to binary floating point of the byte sums
    (exact below [2 ^ 53]), and [datetime.fromtimestamp], which knows the
    years 1 to 9999 only. [report_renders a rs cutoff] says that the report
    of the records [rs] stays inside this range. *)
Definition printable (n : Z) : Prop := Z.abs n < 10 ^ 4300.

Definition args_printable (a : args) : Prop :=
  from_option printable True (args_start a)
  /\ from_option printable True (args_end a)
  /\ match args_status_filter a with
     | Some (low, high) => printable low /\ printable high
     | None => True
     end
  /\ printable (args_top a).

(** The timestamps of 0001-01-01T00:00:00Z and 9999-12-31T23:59:59Z. *)
Definition fromtimestamp_range (ts : Z) : Prop :=
  -62135596800 <= ts <= 253402300799.

Definition report_renders (a : args) (rs : list record) (cutoff : option Z) : Prop :=
  let s := aggregate rs cutoff (new_analyzer (args_top a)) in
  args_printable a
  /\ Z.of_nat (length rs) < 2 ^ 53
  /\ Z.abs (total_data s) < 2 ^ 53
  /\ Z.abs (success_size_sum s) < 2 ^ 53
  /\ match cutoff with
     | None => True
     | Some c => fromtimestamp_range c /\ fromtimestamp_range (c + 23 * 3600)
     end.

(** The records of a small log in which counts tie: the addresses [b] and
    [a] and the URLs [/x] and [/y] twice each, first seen in this order, and
    the address [c] three times, seen last. *)
Definition tied_records : list record :=
  [ mkRecord 10 "b" "POST" "/x" 200 1;
    mkRecord 20 "a" "GET" "/y" 200 1;
    mkRecord 30 "b" "GET" "/y" 200 1;
    mkRecord 40 "a" "POST" "/x" 200 1;
    mkRecord 50 "c" "PUT" "/z" 200 1;
    mkRecord 60 "c" "PUT" "/w" 200 1;
    mkRecord 70 "c" "PUT" "/v" 200 1 ].

(** The characters of an integer literal apart from the whitespace around
    it: decimal digits, a sign, and the underscore between digits. *)
Definition numeric_char (c : ascii) : bool := Py.contains c "0123456789+-_".

(** * Properties *)

(** ** The parser *)

Lemma int_unsigned_raises_only_ValueError (d : string) (e : exn) :
  Py.int_unsigned d = Raise e -> e = ValueError.
Proof.
  unfold Py.int_unsigned.
  destruct (Py.int_digits d 0 false); [|congruence].
  destruct (Py.int_max_str_digits <? Py.digit_count d); congruence.
Qed.

Lemma int_raises_only_ValueError (s : string) (e : exn) :
  Py.int s = Raise e -> e = ValueError.
Proof.
  unfold Py.int.
  destruct (Py.lstrip_int s) as [|c d]; [congruence|].
  destruct (Ascii.eqb c "+"%char); [apply int_unsigned_raises_only_ValueError|].
  destruct (Ascii.eqb c "-"%char); [|apply int_unsigned_raises_only_ValueError].
  destruct (Py.int_unsigned d) as [n|e'] eqn:E; cbn; [congruence|].
  intros [= <-]. by apply int_unsigned_raises_only_ValueError in E.
Qed.

Lemma parse_log_line_Ok (line : string) : parse_log_line line = Ok (parsed line).
Proof.
  unfold parsed, parse_log_line.
  destruct (parts_of line) as [|p0 [|p1 [|p2 [|p3 [|p4 [|p5 [|p6 ps]]]]]]]; try reflexivity.
  cbn.
  destruct (Py.int p0) as [f0|e0] eqn:E0; cbn.
  2:{ by rewrite (int_raises_only_ValueError _ _ E0). }
  destruct (Py.int p4) as [f4|e4] eqn:E4; cbn.
  2:{ by rewrite (int_raises_only_ValueError _ _ E4). }
  destruct (Py.int p5) as [f5|e5] eqn:E5; cbn.
  2:{ by rewrite (int_raises_only_ValueError _ _ E5). }
  reflexivity.
Qed.

(** [parse_log_line] returns without raising; the result is [None] exactly
    when [parts_of] does not give six tokens or when [int] rejects the
    first, fifth or sixth of them, and otherwise the record made of the
    tokens. *)
Lemma parse_log_line_cases (line : string) :
  exists v : option record,
    parse_log_line line = Ok v
    /\ (v = None <->
        length (parts_of line) <> 6%nat
        \/ exists (i : nat) (tok : string),
             (i = 0 \/ i = 4 \/ i = 5)%nat
             /\ parts_of line !! i = Some tok
             /\ forall n : Z, Py.int tok <> Ok n)
    /\ (forall (p0 p1 p2 p3 p4 p5 : string) (f0 f4 f5 : Z),
          parts_of line = [p0; p1; p2; p3; p4; p5] ->
          Py.int p0 = Ok f0 -> Py.int p4 = Ok f4 -> Py.int p5 = Ok f5 ->
          v = Some (mkRecord f0 p1 (Py.upper p2) p3 f4 f5)).
Proof.
  exists (parsed line). split; [apply parse_log_line_Ok|].
  unfold parsed, parse_log_line.
  destruct (parts_of line) as [|p0 [|p1 [|p2 [|p3 [|p4 [|p5 [|p6 ps]]]]]]] eqn:P;
    try (split; [split; [intros _; left; simpl; lia | reflexivity] | discriminate]).
  cbn.
  destruct (Py.int p0) as [f0|e0] eqn:E0; cbn.
  2:{ rewrite (int_raises_only_ValueError _ _ E0) in *. split.
      - split; [|reflexivity]. intros _. right. exists 0%nat, p0.
        repeat split; [tauto|]. intros n. rewrite E0. discriminate.
      - intros. simplify_eq. congruence. }
  destruct (Py.int p4) as [f4|e4] eqn:E4; cbn.
  2:{ rewrite (int_raises_only_ValueError _ _ E4) in *. split.
      - split; [|reflexivity]. intros _. right. exists 4%nat, p4.
        repeat split; [tauto|]. intros n. rewrite E4. discriminate.
      - intros. simplify_eq. congruence. }
  destruct (Py.int p5) as [f5|e5] eqn:E5; cbn.
  2:{ rewrite (int_raises_only_ValueError _ _ E5) in *. split.
      - split; [|reflexivity]. intros _. right. exists 5%nat, p5.
        repeat split; [tauto|]. intros n. rewrite E5. discriminate.
      - intros. simplify_eq. congruence. }
  split.
  - split; [discriminate|]. intros [H|(i & tok & Hi & Htok & Hint)].
    + simpl in H. lia.
    + destruct Hi as [->|[->| ->]]; cbn in Htok; simplify_eq;
        [destruct (Hint f0)|destruct (Hint f4)|destruct (Hint f5)]; assumption.
  - intros. simplify_eq. congruence.
Qed.

(** ** Counters *)

Section CounterFacts.
Context {K : Type} `{EqDecision K}.
Implicit Types (k : K) (c : Counter.t K).

Lemma get_incr k k' c :
  Counter.get k (Counter.incr k' c)
  = Counter.get k c + (if decide (k = k') then 1 else 0).
Proof.
  induction c as [|[k0 n] c IH]; simpl.
  - repeat case_decide; congruence || lia.
  - destruct (decide (k' = k0)) as [->|Hne]; simpl.
    + repeat case_decide; congruence || lia.
    + rewrite IH. repeat case_decide; congruence || lia.
Qed.

Lemma total_incr k c : Counter.total (Counter.incr k c) = Counter.total c + 1.
Proof.
  unfold Counter.total.
  induction c as [|[k0 n] c IH]; simpl; [lia|].
  case_decide; simpl; lia.
Qed.

Lemma keys_incr k c :
  Counter.keys (Counter.incr k c)
  = if decide (k ∈ Counter.keys c) then Counter.keys c else (Counter.keys c ++ [k])%list.
Proof.
  unfold Counter.keys.
  induction c as [|[k0 n] c IH]; [done|].
  change (Counter.incr k ((k0, n) :: c))
    with (if decide (k = k0) then (k0, n + 1) :: c else (k0, n) :: Counter.incr k c).
  rewrite (fmap_cons fst (k0, n) c). cbn [fst].
  destruct (decide (k = k0)) as [->|Hne].
  - rewrite fmap_cons. cbn [fst]. rewrite decide_True; [done|left].
  - rewrite fmap_cons, IH. cbn [fst].
    destruct (decide (k ∈ c.*1)) as [Hin|Hnin].
    + rewrite decide_True; [done|by right].
    + rewrite decide_False; [done|]. rewrite elem_of_cons. tauto.
Qed.

Lemma keys_incr_NoDup k c :
  NoDup (Counter.keys c) -> NoDup (Counter.keys (Counter.incr k c)).
Proof.
  intros Hnd. rewrite keys_incr. case_decide as Hin; [done|].
  apply NoDup_app. split_and!; [done| |apply NoDup_singleton].
  intros x Hx Hx'. apply list_elem_of_singleton in Hx'. by subst.
Qed.

Lemma get_elem_of k n c :
  NoDup (Counter.keys c) -> (k, n) ∈ c -> Counter.get k c = n.
Proof.
  unfold Counter.keys.
  induction c as [|[k0 n0] c IH]; simpl; intros Hnd Hin.
  - by apply elem_of_nil in Hin.
  - apply NoDup_cons in Hnd as [Hk0 Hnd].
    apply elem_of_cons in Hin as [Heq|Hin].
    + simplify_eq. by rewrite decide_True.
    + rewrite decide_False; [by apply IH|].
      intros ->. apply Hk0. apply list_elem_of_fmap. by exists (k0, n).
Qed.

End CounterFacts.

(** ** The filter: a bound of zero *)

(** C2. A start bound of [0] does not reject the record with timestamp
    [-5], and an end bound of [0] does not reject the record with timestamp
    [5]: [matches_filters] reads a bound of zero as no bound. Both records
    are the result of parsing a well-formed line. *)
Theorem matches_filters_zero_bound_ignored :
  parse_log_line "-5 10.0.0.1 GET /a 200 1"
    = Ok (Some (mkRecord (-5) "10.0.0.1" "GET" "/a" 200 1))
  /\ matches_filters (mkRecord (-5) "10.0.0.1" "GET" "/a" 200 1)
       (mkArgs None None (Some 0) None 3) = true
  /\ parse_log_line "5 10.0.0.1 GET /a 200 1"
     = Ok (Some (mkRecord 5 "10.0.0.1" "GET" "/a" 200 1))
  /\ matches_filters (mkRecord 5 "10.0.0.1" "GET" "/a" 200 1)
       (mkArgs None None None (Some 0) 3) = true.
Proof. repeat split; vm_compute; reflexivity. Qed.

(** ** [process_record]: the recent window *)

(** C4. With the cutoff [0] (the cutoff [main] derives from a log whose
    latest matching timestamp is 86400), the record with timestamp 3600 is
    at or after the cutoff and its hour index is 1, yet [process_record]
    leaves [requests_per_hour] and [recent_ip_counts] empty; the run over
    the two-line log shows the same on the whole file. *)
Theorem process_record_cutoff_zero_skips_window :
  let r := mkRecord 3600 "10.0.0.1" "GET" "/b" 200 1 in
  let lines := ["86400 10.0.0.1 GET /a 200 1"; "3600 10.0.0.1 GET /b 200 1"] in
  let a := mkArgs None None None None 3 in
  (0 <= timestamp r /\ hour_index r 0 = 1)
  /\ requests_per_hour (process_record (new_analyzer 3) r (Some 0)) = []
  /\ recent_ip_counts (process_record (new_analyzer 3) r (Some 0)) = []
  /\ find_max_timestamp lines a = Ok (Some 86400)
  /\ (exists s w,
        process_file lines a (Some (86400 - 86400)) = Ok (s, w)
        /\ total_requests s = 2
        /\ requests_per_hour s = []
        /\ recent_ip_counts s = []).
Proof.
  cbv zeta. split_and!.
  - simpl. lia.
  - reflexivity.
  - reflexivity.
  - reflexivity.
  - vm_compute. reflexivity.
  - eexists _, _. split_and!; [vm_compute; reflexivity|..]; reflexivity.
Qed.

(** C3, as stated, fails: with cutoff 1 the record with timestamp 86401 is
    at or after the cutoff and has hour index 24, and [process_record]
    counts its address in [recent_ip_counts]. *)
Lemma beyond_24h_recent_ip_counted :
  let r := mkRecord 86401 "10.0.0.1" "GET" "/a" 200 1 in
  1 <= timestamp r
  /\ 24 <= hour_index r 1
  /\ recent_ip_counts (new_analyzer 3) = []
  /\ recent_ip_counts (process_record (new_analyzer 3) r (Some 1)) = [("10.0.0.1", 1)].
Proof. cbv zeta. split_and!; [simpl; lia|vm_compute; congruence|reflexivity..]. Qed.

(** C3, amended. For every cutoff [c], a record at or after [c] whose hour
    index is at least 24 leaves [requests_per_hour] as it was and is counted
    by every counter outside the window; [recent_ip_counts] is not gated by
    the hour index: when [c] is not zero the record's address is counted
    there. *)
Theorem process_record_beyond_24h (s : TrafficAnalyzer) (r : record) (c : Z) :
  c <= timestamp r ->
  24 <= hour_index r c ->
  let s' := process_record s r (Some c) in
  requests_per_hour s' = requests_per_hour s
  /\ (c <> 0 -> recent_ip_counts s' = Counter.incr (ip r) (recent_ip_counts s))
  /\ total_requests s' = total_requests s + 1
  /\ unique_ips s' = {[ ip r ]} ∪ unique_ips s
  /\ total_data s' = total_data s + size_ r
  /\ ip_counter s' = Counter.incr (ip r) (ip_counter s)
  /\ url_counter s' = Counter.incr (url r) (url_counter s)
  /\ method_counter s' = Counter.incr (method r) (method_counter s)
  /\ success_count s' = success_count s + (if is_2xx r then 1 else 0)
  /\ success_size_sum s' = success_size_sum s + (if is_2xx r then size_ r else 0)
  /\ client_error_count s' = client_error_count s + (if is_4xx r then 1 else 0)
  /\ server_error_count s' = server_error_count s + (if is_5xx r then 1 else 0).
Proof.
  intros Hc Hh. cbv zeta. unfold process_record, in_recent_window. cbn.
  split_and!; try reflexivity.
  - destruct (negb (c =? 0) && (c <=? timestamp r)); [|reflexivity].
    destruct (Z.ltb_spec (hour_index r c) 24); [lia|].
    by rewrite andb_false_r.
  - intros Hne. destruct (Z.eqb_spec c 0); [done|].
    destruct (Z.leb_spec c (timestamp r)); [done|lia].
  - destruct (is_2xx r); lia.
  - destruct (is_2xx r); lia.
  - unfold is_2xx, is_4xx. destruct (is_4xx r) eqn:E; unfold is_4xx in E; rewrite E;
      destruct ((200 <=? status r) && (status r <? 300)) eqn:E2; lia.
  - unfold is_2xx, is_4xx, is_5xx.
    destruct ((200 <=? status r) && (status r <? 300)) eqn:E2;
      destruct ((400 <=? status r) && (status r <? 500)) eqn:E4;
      destruct ((500 <=? status r) && (status r <? 600)) eqn:E5; lia.
Qed.

Lemma process_record_beyond_24h_witness :
  let r := mkRecord 86401 "10.0.0.1" "GET" "/a" 200 1 in
  let s' := process_record (new_analyzer 3) r (Some 1) in
  requests_per_hour s' = [] /\ total_requests s' = 0 + 1.
Proof.
  cbv zeta.
  pose proof (process_record_beyond_24h (new_analyzer 3)
                (mkRecord 86401 "10.0.0.1" "GET" "/a" 200 1) 1) as H.
  cbv zeta in H.
  destruct H as (H1 & _ & H3 & _).
  - simpl. lia.
  - vm_compute. congruence.
  - split; [exact H1|exact H3].
Defined.

(** ** Counting invariants *)

Lemma process_calls_counts (calls : list (record * option Z)) (s : TrafficAnalyzer) :
  let s' := process_calls calls s in
  total_requests s' = total_requests s + Z.of_nat (length calls)
  /\ Counter.total (method_counter s')
     = Counter.total (method_counter s) + Z.of_nat (length calls)
  /\ success_count s' + client_error_count s' + server_error_count s'
       + unbucketed_calls calls
     = success_count s + client_error_count s + server_error_count s
       + Z.of_nat (length calls).
Proof.
  cbv zeta. revert s.
  induction calls as [|[r c] calls IH]; intros s.
  - unfold unbucketed_calls. simpl. lia.
  - change (process_calls ((r, c) :: calls) s)
      with (process_calls calls (process_record s r c)).
    destruct (IH (process_record s r c)) as (IH1 & IH2 & IH3).
    rewrite IH1, IH2.
    assert (unbucketed_calls ((r, c) :: calls)
            = unbucketed_calls calls + (if status_bucketed r then 0 else 1)) as ->.
    { unfold unbucketed_calls. rewrite filter_cons. cbn [fst].
      destruct (status_bucketed r); [rewrite decide_False by done|rewrite decide_True by done];
        cbn [length]; lia. }
    cbn [process_record total_requests method_counter success_count
         client_error_count server_error_count] in *.
    rewrite total_incr.
    split_and!; [cbn [length]; lia..|].
    revert IH3. unfold status_bucketed, is_2xx, is_4xx, is_5xx.
    destruct ((200 <=? status r) && (status r <? 300)) eqn:E2;
      destruct ((400 <=? status r) && (status r <? 500)) eqn:E4;
      destruct ((500 <=? status r) && (status r <? 600)) eqn:E5;
      cbn [orb length]; lia.
Qed.

Lemma unbucketed_calls_zero (calls : list (record * option Z)) :
  unbucketed_calls calls = 0
  <-> Forall (fun call => status_bucketed call.1 = true) calls.
Proof.
  unfold unbucketed_calls. split.
  - intros H. assert (filter (fun call : record * option Z =>
                                status_bucketed call.1 = false) calls = []) as Hnil.
    { apply length_zero_iff_nil. lia. }
    apply Forall_forall. intros call Hin.
    destruct (status_bucketed call.1) eqn:E; [done|].
    assert (call ∈ filter (fun call : record * option Z =>
                             status_bucketed call.1 = false) calls) as Hf.
    { apply list_elem_of_filter. done. }
    rewrite Hnil in Hf. by apply elem_of_nil in Hf.
  - intros H. induction H as [|call calls Hc _ IH]; [done|].
    rewrite filter_cons, decide_False; [exact IH|]. rewrite Hc. done.
Qed.

(** C6. After any sequence of [process_record] calls on a fresh analyzer,
    [total_requests] is the sum of the values of [method_counter]; the three
    status counters add up to at most [total_requests], and to exactly
    [total_requests] if and only if every processed record has its status in
    2xx, 4xx or 5xx. *)
Theorem totals_invariant (n : Z) (calls : list (record * option Z)) :
  let s := process_calls calls (new_analyzer n) in
  total_requests s = Counter.total (method_counter s)
  /\ success_count s + client_error_count s + server_error_count s <= total_requests s
  /\ (total_requests s = success_count s + client_error_count s + server_error_count s
      <-> Forall (fun call => status_bucketed call.1 = true) calls).
Proof.
  cbv zeta.
  destruct (process_calls_counts calls (new_analyzer n)) as (H1 & H2 & H3).
  cbn [new_analyzer total_requests method_counter success_count
       client_error_count server_error_count] in H1, H2, H3.
  change (Counter.total []) with 0 in H2.
  assert (0 <= unbucketed_calls calls) by (unfold unbucketed_calls; lia).
  rewrite <- unbucketed_calls_zero.
  split_and!; [lia|lia|split; lia].
Qed.

(** ** The two passes over the file *)

Lemma find_max_from_matching (lines : list string) (a : args) (acc : option Z) :
  find_max_from lines a acc = Ok (foldl max_step acc (timestamp <$> matching lines a)).
Proof.
  revert acc. induction lines as [|line lines IH]; intros acc; [reflexivity|].
  cbn [find_max_from]. rewrite parse_log_line_Ok. cbn [bind].
  rewrite IH. unfold matching. cbn [omap list_omap].
  destruct (parsed line) as [r|]; cbn; [|reflexivity].
  destruct (matches_filters r a); cbn; [|reflexivity].
  destruct acc; reflexivity.
Qed.

Lemma foldl_max_step_Some (l : list Z) (acc : option Z) (m : Z) :
  foldl max_step acc l = Some m ->
  (forall t, t ∈ l -> t <= m)
  /\ (forall m0, acc = Some m0 -> m0 <= m)
  /\ (acc = Some m \/ m ∈ l).
Proof.
  revert acc. induction l as [|t l IH]; intros acc H.
  - cbn in H. subst acc. split_and!; [intros t Ht; by apply elem_of_nil in Ht| |by left].
    intros m0 [= ->]. lia.
  - cbn [foldl] in H. apply IH in H as (Hall & Hacc & Hin).
    assert (t <= m) as Ht.
    { destruct acc as [m0|]; cbn in Hacc.
      - destruct (Z.ltb_spec m0 t); [by apply Hacc|].
        specialize (Hacc m0 eq_refl). lia.
      - by apply Hacc. }
    split_and!.
    + intros t' [->|Ht']%elem_of_cons; [done|by apply Hall].
    + intros m0 ->. cbn in Hacc. destruct (Z.ltb_spec m0 t).
      * lia.
      * by apply Hacc.
    + destruct Hin as [Hin|Hin]; [|right; by right].
      destruct acc as [m0|]; cbn in Hin.
      * destruct (Z.ltb_spec m0 t); simplify_eq; [right; left|by left].
      * simplify_eq. right; left.
Qed.

Lemma foldl_max_step_is_Some (l : list Z) (acc : option Z) :
  foldl max_step acc l = None -> acc = None /\ l = [].
Proof.
  revert acc. induction l as [|t l IH]; intros acc H; [done|].
  cbn [foldl] in H. apply IH in H as [H _].
  destruct acc as [m0|]; cbn in H; [destruct (m0 <? t)|]; discriminate.
Qed.

Lemma find_max_timestamp_None (lines : list string) (a : args) :
  find_max_timestamp lines a = Ok None <-> matching lines a = [].
Proof.
  unfold find_max_timestamp. rewrite find_max_from_matching. split.
  - intros [= H]. apply foldl_max_step_is_Some in H as [_ H].
    by apply fmap_nil_inv in H.
  - intros ->. reflexivity.
Qed.

Lemma find_max_timestamp_Some (lines : list string) (a : args) (m : Z) :
  find_max_timestamp lines a = Ok (Some m) ->
  (forall r, r ∈ matching lines a -> timestamp r <= m)
  /\ (exists r, r ∈ matching lines a /\ timestamp r = m).
Proof.
  unfold find_max_timestamp. rewrite find_max_from_matching.
  intros [= H]. apply foldl_max_step_Some in H as (Hall & _ & [?|Hin]); [done|].
  split.
  - intros r Hr. apply Hall. apply list_elem_of_fmap. by exists r.
  - apply list_elem_of_fmap in Hin as (r & -> & Hr). by exists r.
Qed.

Lemma elem_of_matching (lines : list string) (a : args) (r : record) :
  r ∈ matching lines a
  <-> exists line, line ∈ lines /\ parse_log_line line = Ok (Some r)
                   /\ matches_filters r a = true.
Proof.
  unfold matching. rewrite list_elem_of_omap. split.
  - intros (line & Hin & H). exists line. split; [done|].
    rewrite parse_log_line_Ok.
    destruct (parsed line) as [r'|]; cbn in H; [|done].
    destruct (matches_filters r' a) eqn:E; simplify_eq. done.
  - intros (line & Hin & Hp & Hm). exists line. split; [done|].
    rewrite parse_log_line_Ok in Hp. simplify_eq. rewrite Hp. cbn. by rewrite Hm.
Qed.

Lemma process_lines_matching (lines : list string) (n : Z) (a : args)
    (cutoff : option Z) (s : TrafficAnalyzer) (w : list string) :
  exists w', process_lines lines n a cutoff s w
             = Ok (aggregate (matching lines a) cutoff s, w').
Proof.
  revert n s w. induction lines as [|line lines IH]; intros n s w.
  - by exists w.
  - cbn [process_lines]. rewrite parse_log_line_Ok. cbn [bind].
    unfold matching. cbn [omap list_omap].
    destruct (parsed line) as [r|]; cbn.
    + destruct (matches_filters r a); cbn; apply IH.
    + apply IH.
Qed.

Lemma process_file_matching (lines : list string) (a : args) (cutoff : option Z) :
  exists w, process_file lines a cutoff
            = Ok (aggregate (matching lines a) cutoff (new_analyzer (args_top a)), w).
Proof. apply process_lines_matching. Qed.

(** ** The cutoff derived by [main] *)

Lemma hour_index_bounds (r : record) (c : Z) :
  c <= timestamp r -> timestamp r <= c + 86400 ->
  0 <= hour_index r c <= 24 /\ (hour_index r c < 24 <-> timestamp r < c + 86400).
Proof.
  intros Hlo Hhi. unfold hour_index. split_and!.
  - apply Z.div_pos; lia.
  - apply Z.div_le_upper_bound; lia.
  - split; intros H.
    + destruct (Z.lt_ge_cases (timestamp r) (c + 86400)) as [Hlt|Hge]; [done|].
      assert (24 <= (timestamp r - c) / 3600); [|lia].
      apply Z.div_le_lower_bound; lia.
    + apply Z.div_lt_upper_bound; lia.
Qed.

Lemma process_record_hour_24 (s : TrafficAnalyzer) (r : record) (c : Z) :
  24 <= hour_index r c ->
  requests_per_hour (process_record s r (Some c)) = requests_per_hour s.
Proof.
  intros H. cbn. destruct (in_recent_window r (Some c)); [|done].
  destruct (Z.ltb_spec (hour_index r c) 24); [lia|]. by rewrite andb_false_r.
Qed.

(** C1, as stated, fails on its own example: for the log made of the single
    line [1000 10.0.0.1 GET /a 200 500] and no filter, the cutoff is
    [1000 - 86400], the record is at or after it, its hour index is 24 and
    not below 24, and after the aggregation pass bucket 0 holds no
    request. *)
Lemma single_line_not_in_bucket_0 :
  let line := "1000 10.0.0.1 GET /a 200 500" in
  let a := mkArgs None None None None 3 in
  let r := mkRecord 1000 "10.0.0.1" "GET" "/a" 200 500 in
  find_max_timestamp [line] a = Ok (Some 1000)
  /\ parse_log_line line = Ok (Some r)
  /\ matches_filters r a = true
  /\ 1000 - 86400 <= timestamp r
  /\ ~ hour_index r (1000 - 86400) < 24
  /\ exists s w,
       process_file [line] a (Some (1000 - 86400)) = Ok (s, w)
       /\ Counter.get 0 (requests_per_hour s) = 0.
Proof.
  cbv zeta. split_and!; try (vm_compute; reflexivity).
  - simpl. lia.
  - vm_compute. intros H. discriminate H.
  - eexists _, _. split; vm_compute; reflexivity.
Qed.

(** C1, amended. When [main] derives the cutoff as the maximum matching
    timestamp minus 86400, every matching record at or after the cutoff has
    an hour index between 0 and 24; the index is below 24 exactly for the
    records older than the maximum, and a record that carries the maximum
    timestamp has index 24 and is not added to [requests_per_hour]. For the
    log made of the single line [1000 10.0.0.1 GET /a 200 500] and no
    filter, the report is the one of a state with one request, one address,
    one recent address and no request in any hour bucket, printed for the
    cutoff [1000 - 86400]. *)
Theorem derived_cutoff_hour_index
    (a : args) (lines : list string) (m : Z) (line : string) (r : record) :
  find_max_timestamp lines a = Ok (Some m) ->
  line ∈ lines ->
  parse_log_line line = Ok (Some r) ->
  matches_filters r a = true ->
  m - 86400 <= timestamp r ->
  (0 <= hour_index r (m - 86400) <= 24
   /\ (hour_index r (m - 86400) < 24 <-> timestamp r < m)
   /\ (timestamp r = m ->
       forall s : TrafficAnalyzer,
         requests_per_hour (process_record s r (Some (m - 86400)))
         = requests_per_hour s))
  /\ (forall (format_pct format_avg : Z -> Z -> string) (format_hour : Z -> string),
        exists s : TrafficAnalyzer,
          main format_pct format_avg format_hour
            (mkArgs None None None None 3) ["1000 10.0.0.1 GET /a 200 500"]
          = Ok {| stdout := generate_report format_pct format_avg format_hour s
                              (mkArgs None None None None 3) (Some (1000 - 86400));
                  stderr := [];
                  exit_status := 0 |}
          /\ total_requests s = 1
          /\ size (unique_ips s) = 1%nat
          /\ length (recent_ip_counts s) = 1%nat
          /\ requests_per_hour s = []
          /\ forall h : Z, Counter.get h (requests_per_hour s) = 0).
Proof.
  intros Hmax Hin Hparse Hmatch Hcut. split.
  - assert (timestamp r <= m) as Hle.
    { apply find_max_timestamp_Some in Hmax as [Hall _]. apply Hall.
      apply elem_of_matching. by exists line. }
    destruct (hour_index_bounds r (m - 86400)) as (Hb & Hiff); [lia..|].
    split_and!; [lia..| |].
    + rewrite Hiff. lia.
    + intros Hm s. apply process_record_hour_24.
      destruct (Z.lt_ge_cases (hour_index r (m - 86400)) 24) as [Hlt|]; [|done].
      apply Hiff in Hlt. lia.
  - intros fp fa fh.
    exists (process_record (new_analyzer 3)
              (mkRecord 1000 "10.0.0.1" "GET" "/a" 200 500) (Some (1000 - 86400))).
    split_and!; reflexivity.
Qed.

Lemma derived_cutoff_hour_index_witness :
  let r := mkRecord 1000 "10.0.0.1" "GET" "/a" 200 500 in
  0 <= hour_index r (1000 - 86400) <= 24
  /\ (hour_index r (1000 - 86400) < 24 <-> timestamp r < 1000).
Proof.
  cbv zeta.
  destruct (derived_cutoff_hour_index (mkArgs None None None None 3)
              ["1000 10.0.0.1 GET /a 200 500"] 1000
              "1000 10.0.0.1 GET /a 200 500"
              (mkRecord 1000 "10.0.0.1" "GET" "/a" 200 500))
    as ((H1 & H2 & _) & _).
  - vm_compute. reflexivity.
  - apply list_elem_of_singleton. reflexivity.
  - vm_compute. reflexivity.
  - vm_compute. reflexivity.
  - simpl. lia.
  - split; [exact H1|exact H2].
Defined.

(** ** No matching record *)

(** C9. When no record of the file matches the filters, the scan finds no
    maximum and [main] does not run the aggregation pass: it prints the
    report of a fresh analyzer with no cutoff, writes the single note to the
    error stream and exits with status 0. That report echoes the filter
    settings and otherwise shows zero counters, the [(no data)] placeholder
    for the distribution and for both top lists, no recent address and an
    empty hourly list. *)
Theorem no_match_report
    (format_pct format_avg : Z -> Z -> string) (format_hour : Z -> string)
    (a : args) (lines : list string) :
  matching lines a = [] ->
  find_max_timestamp lines a = Ok None
  /\ main format_pct format_avg format_hour a lines
     = Ok {| stdout :=
               String.concat nl
                 ([ "====== TRAFFIC ANALYSIS REPORT ======" +:+ nl;
                    "Filter settings:" ]
                  ++ filter_settings_lines a
                  ++ [ "";
                       "Basic statistics:";
                       "Total requests: 0";
                       "Unique IPs: 0";
                       "Total data transferred: 0 (0.00 B)";
                       "";
                       "Request distribution:";
                       "(no data)";
                       "";
                       "Performance metrics:";
                       "- Successful requests (2xx): 0";
                       "- Client errors (4xx): 0";
                       "- Server errors (5xx): 0";
                       "- Average response size (2xx): 0.00 bytes";
                       "";
                       "Top " +:+ pretty (args_top a) +:+ " active IPs:";
                       "(no data)";
                       "";
                       "Top 5 requested URLs:";
                       "(no data)";
                       "";
                       "Recent activity (last 24h):";
                       "- Unique IPs: 0";
                       "- Requests per hour (last 24h): []" ]);
             stderr := ["No valid records matched the filters."];
             exit_status := 0 |}.
Proof.
  intros Hnone. apply find_max_timestamp_None in Hnone. split; [done|].
  unfold main. rewrite Hnone. cbn [bind].
  unfold generate_report, report_lines, top_ip_lines, Counter.most_common.
  cbn [new_analyzer ip_counter Counter.sorted_desc foldr].
  rewrite take_nil. reflexivity.
Qed.

Lemma no_match_report_witness :
  exists out : outcome,
    main (fun _ _ => "") (fun _ _ => "") (fun _ => "")
      (mkArgs (Some "POST") None None None 3)
      ["1000 10.0.0.1 GET /a 200 500"; "not a record"]
    = Ok out
    /\ stderr out = ["No valid records matched the filters."]
    /\ exit_status out = 0.
Proof.
  destruct (no_match_report (fun _ _ => "") (fun _ _ => "") (fun _ => "")
              (mkArgs (Some "POST") None None None 3)
              ["1000 10.0.0.1 GET /a 200 500"; "not a record"]) as [_ H].
  - vm_compute. reflexivity.
  - eexists. split; [exact H|]. split; reflexivity.
Defined.

(** ** [human_readable_bytes] *)






(** ** Order independence *)

Lemma agree_refl (s : TrafficAnalyzer) : agree s s.
Proof. by constructor. Qed.

Lemma agree_trans (s1 s2 s3 : TrafficAnalyzer) : agree s1 s2 -> agree s2 s3 -> agree s1 s3.
Proof.
  intros [] []. constructor; unfold same_counts in *; intros; etrans; eauto.
Qed.

Lemma process_record_agree (s s' : TrafficAnalyzer) (r : record) (c : option Z) :
  agree s s' -> agree (process_record s r c) (process_record s' r c).
Proof.
  intros [H1 H2 H3 H4 H5 H6 H7 H8 H9 H10 H11 H12 H13].
  constructor; unfold same_counts in *; cbn;
    try (by rewrite ?H1, ?H2, ?H3, ?H4, ?H8, ?H9, ?H10, ?H11).
  - intros k. rewrite !get_incr, (H5 k). done.
  - intros k. rewrite !get_incr, (H6 k). done.
  - intros k. rewrite !get_incr, (H7 k). done.
  - intros k. destruct (in_recent_window r c); [|apply H12].
    rewrite !get_incr, (H12 k). done.
  - intros k. destruct (in_recent_window r c); [|apply H13].
    destruct ((0 <=? hour_index r (default 0 c)) && (hour_index r (default 0 c) <? 24));
      [|apply H13].
    rewrite !get_incr, (H13 k). done.
Qed.

Lemma process_record_swap (s : TrafficAnalyzer) (r1 r2 : record) (c : option Z) :
  agree (process_record (process_record s r1 c) r2 c)
        (process_record (process_record s r2 c) r1 c).
Proof.
  constructor; unfold same_counts; cbn.
  - done.
  - lia.
  - rewrite !(assoc_L (∪)). f_equal. apply (comm_L (∪)).
  - lia.
  - intros k. rewrite !get_incr. lia.
  - intros k. rewrite !get_incr. lia.
  - intros k. rewrite !get_incr. lia.
  - destruct (is_2xx r1), (is_2xx r2); lia.
  - destruct (is_2xx r1), (is_2xx r2), (is_4xx r1), (is_4xx r2); lia.
  - destruct (is_2xx r1), (is_2xx r2), (is_4xx r1), (is_4xx r2),
      (is_5xx r1), (is_5xx r2); lia.
  - destruct (is_2xx r1), (is_2xx r2); lia.
  - intros k. destruct (in_recent_window r1 c), (in_recent_window r2 c);
      rewrite ?get_incr; lia.
  - intros k. destruct (in_recent_window r1 c), (in_recent_window r2 c);
      repeat match goal with
             | |- context [if ?b then _ else _] => destruct b
             end; rewrite ?get_incr; lia.
Qed.

Lemma aggregate_agree (rs : list record) (c : option Z) (s s' : TrafficAnalyzer) :
  agree s s' -> agree (aggregate rs c s) (aggregate rs c s').
Proof.
  revert s s'. induction rs as [|r rs IH]; intros s s' H; [done|].
  apply IH. by apply process_record_agree.
Qed.

Lemma aggregate_Permutation (rs rs' : list record) (c : option Z) :
  rs ≡ₚ rs' ->
  forall s s', agree s s' -> agree (aggregate rs c s) (aggregate rs' c s').
Proof.
  induction 1 as [|r rs rs' _ IH|r1 r2 rs|rs1 rs2 rs3 _ IH1 _ IH2]; intros s s' H.
  - done.
  - apply IH. by apply process_record_agree.
  - cbn. apply aggregate_agree.
    eapply agree_trans; [apply process_record_swap|].
    by do 2 apply process_record_agree.
  - eapply agree_trans; [by apply IH1|]. apply IH2, agree_refl.
Qed.

Section CounterWf.
Context {K : Type} `{EqDecision K}.
Implicit Types (k : K) (c : Counter.t K).

Lemma counter_wf_nil : counter_wf ([] : Counter.t K).
Proof.
  split; [apply NoDup_nil_2|]. intros k n Hin. by apply elem_of_nil in Hin.
Qed.

Lemma elem_of_incr k k' n c :
  (k', n) ∈ Counter.incr k c ->
  (k', n) ∈ c \/ (k' = k /\ (n = 1 \/ (k, n - 1) ∈ c)).
Proof.
  induction c as [|[k0 n0] c IH]; cbn [Counter.incr].
  - intros Hin%list_elem_of_singleton. simplify_eq. right. split; [done|by left].
  - destruct (decide (k = k0)) as [->|Hne].
    + intros [Heq|Hin]%elem_of_cons.
      * simplify_eq. right. split; [done|]. right.
        replace (n0 + 1 - 1) with n0 by lia. left.
      * left. by right.
    + intros [Heq|Hin]%elem_of_cons.
      * simplify_eq. left. left.
      * destruct (IH Hin) as [?|(-> & [->|?])].
        -- left. by right.
        -- right. split; [done|by left].
        -- right. split; [done|]. right. by right.
Qed.

Lemma counter_wf_incr k c : counter_wf c -> counter_wf (Counter.incr k c).
Proof.
  intros [Hnd Hpos]. split; [by apply keys_incr_NoDup|].
  intros k' n Hin. apply elem_of_incr in Hin as [Hin|(-> & [->|Hin])].
  - by apply (Hpos k').
  - lia.
  - apply Hpos in Hin. lia.
Qed.

Lemma get_nonzero_elem_of k c : Counter.get k c <> 0 -> (k, Counter.get k c) ∈ c.
Proof.
  induction c as [|[k0 n0] c IH]; cbn [Counter.get]; [done|].
  destruct (decide (k = k0)) as [->|Hne]; intros Hnz.
  - left.
  - right. by apply IH.
Qed.

Lemma same_counts_Permutation c c' :
  counter_wf c -> counter_wf c' -> same_counts c c' -> c ≡ₚ c'.
Proof.
  intros [Hnd Hpos] [Hnd' Hpos'] Hsame.
  apply NoDup_Permutation.
  - by apply (NoDup_fmap_1 fst).
  - by apply (NoDup_fmap_1 fst).
  - intros [k n]. split; intros Hin.
    + pose proof (get_elem_of k n c Hnd Hin) as Hget.
      rewrite (Hsame k) in Hget. rewrite <- Hget.
      apply get_nonzero_elem_of. apply Hpos in Hin. lia.
    + pose proof (get_elem_of k n c' Hnd' Hin) as Hget.
      rewrite <- (Hsame k) in Hget. rewrite <- Hget.
      apply get_nonzero_elem_of. apply Hpos' in Hin. lia.
Qed.

End CounterWf.

Lemma new_analyzer_wf (n : Z) : analyzer_wf (new_analyzer n).
Proof. constructor; apply counter_wf_nil. Qed.

Lemma process_record_wf (s : TrafficAnalyzer) (r : record) (c : option Z) :
  analyzer_wf s -> analyzer_wf (process_record s r c).
Proof.
  intros []. constructor; cbn;
    repeat match goal with
           | |- context [if ?b then _ else _] => destruct b
           end; try done; by apply counter_wf_incr.
Qed.

Lemma aggregate_wf (rs : list record) (c : option Z) (s : TrafficAnalyzer) :
  analyzer_wf s -> analyzer_wf (aggregate rs c s).
Proof.
  revert s. induction rs as [|r rs IH]; intros s H; [done|].
  apply IH. by apply process_record_wf.
Qed.

Lemma agree_same_state (s s' : TrafficAnalyzer) :
  analyzer_wf s -> analyzer_wf s' -> agree s s' -> same_state s s'.
Proof.
  intros [] [] []. constructor; try done; (split; [by apply same_counts_Permutation|done]).
Qed.

(** C8. If one file is a permutation of the lines of another, the scan
    finds the same maximum matching timestamp in both, hence [main] derives
    the same cutoff from it, and for every cutoff the aggregation pass ends, on both, in the
    same state: equal scalar counters, equal set of addresses, and counters
    with the same entries, each key with the same count. *)
Theorem two_pass_order_independent (a : args) (lines lines' : list string) :
  lines ≡ₚ lines' ->
  (exists max_ts : option Z,
     find_max_timestamp lines a = Ok max_ts
     /\ find_max_timestamp lines' a = Ok max_ts)
  /\ forall cutoff : option Z,
       exists (s s' : TrafficAnalyzer) (w w' : list string),
         process_file lines a cutoff = Ok (s, w)
         /\ process_file lines' a cutoff = Ok (s', w')
         /\ same_state s s'.
Proof.
  intros Hperm.
  assert (matching lines a ≡ₚ matching lines' a) as Hm.
  { unfold matching. by rewrite Hperm. }
  assert (find_max_timestamp lines a = find_max_timestamp lines' a) as Hmax.
  { unfold find_max_timestamp. rewrite !find_max_from_matching. f_equal.
    assert (timestamp <$> matching lines a ≡ₚ timestamp <$> matching lines' a) as Hts
      by (by rewrite Hm).
    destruct (foldl max_step None (timestamp <$> matching lines a)) as [m|] eqn:E;
      destruct (foldl max_step None (timestamp <$> matching lines' a)) as [m'|] eqn:E'.
    - apply foldl_max_step_Some in E as (Hall & _ & [?|Hin]); [done|].
      apply foldl_max_step_Some in E' as (Hall' & _ & [?|Hin']); [done|].
      assert (m ∈ timestamp <$> matching lines' a) as H1 by (by rewrite <- Hts).
      assert (m' ∈ timestamp <$> matching lines a) as H2 by (by rewrite Hts).
      apply Hall' in H1. apply Hall in H2. f_equal. lia.
    - apply foldl_max_step_is_Some in E' as [_ E'].
      apply foldl_max_step_Some in E as (_ & _ & [?|Hin]); [done|].
      rewrite Hts, E' in Hin. by apply elem_of_nil in Hin.
    - apply foldl_max_step_is_Some in E as [_ E].
      apply foldl_max_step_Some in E' as (_ & _ & [?|Hin]); [done|].
      rewrite <- Hts, E in Hin. by apply elem_of_nil in Hin.
    - done. }
  split.
  - rewrite <- Hmax. unfold find_max_timestamp. rewrite find_max_from_matching.
    eexists. split; reflexivity.
  - intros cutoff.
    destruct (process_file_matching lines a cutoff) as [w Hw].
    destruct (process_file_matching lines' a cutoff) as [w' Hw'].
    eexists _, _, w, w'. split_and!; [done..|].
    apply agree_same_state; [apply aggregate_wf, new_analyzer_wf..|].
    apply aggregate_Permutation; [done|apply agree_refl].
Qed.

Lemma two_pass_order_independent_witness :
  exists max_ts : option Z,
    find_max_timestamp
      ["1000 10.0.0.1 GET /a 200 500"; "2000 10.0.0.2 POST /b 404 7"]
      (mkArgs None None None None 3) = Ok max_ts
    /\ find_max_timestamp
         ["2000 10.0.0.2 POST /b 404 7"; "1000 10.0.0.1 GET /a 200 500"]
         (mkArgs None None None None 3) = Ok max_ts.
Proof.
  destruct (two_pass_order_independent (mkArgs None None None None 3)
              ["1000 10.0.0.1 GET /a 200 500"; "2000 10.0.0.2 POST /b 404 7"]
              ["2000 10.0.0.2 POST /b 404 7"; "1000 10.0.0.1 GET /a 200 500"])
    as [H _].
  - apply perm_swap.
  - exact H.
Defined.

(** ** Ties in the report *)

Section Ties.
Context {K : Type} `{EqDecision K}.
Implicit Types (k : K) (c : list (K * Z)) (x : K * Z) (n : Z).

(** A counter fed with a stream of keys lists them as first seen. *)
Lemma keys_foldl_incr (ks : list K) c :
  Counter.keys (foldl (fun acc k => Counter.incr k acc) c ks)
  = foldl note_key (Counter.keys c) ks.
Proof.
  revert c. induction ks as [|k ks IH]; intros c; [done|].
  cbn [foldl]. rewrite IH, keys_incr. done.
Qed.

Lemma foldl_incr_wf (ks : list K) c :
  counter_wf c -> counter_wf (foldl (fun acc k => Counter.incr k acc) c ks).
Proof.
  revert c. induction ks as [|k ks IH]; intros c Hc; [done|].
  apply IH. by apply counter_wf_incr.
Qed.

(** Insertion puts [x] in front of the entries with its own count and
    does not move the others. *)
Lemma filter_insert_desc_eq x n (l : list (K * Z)) :
  x.2 = n ->
  filter (fun y : K * Z => y.2 = n) (Counter.insert_desc x l)
  = x :: filter (fun y : K * Z => y.2 = n) l.
Proof.
  intros Hx. induction l as [|y l IH]; cbn [Counter.insert_desc].
  - by rewrite filter_cons_True.
  - destruct (Z.ltb_spec x.2 y.2) as [Hlt|Hge].
    + rewrite !(filter_cons_False _ y) by lia. done.
    + by rewrite (filter_cons_True _ x).
Qed.

Lemma filter_insert_desc_ne x n (l : list (K * Z)) :
  x.2 <> n ->
  filter (fun y : K * Z => y.2 = n) (Counter.insert_desc x l)
  = filter (fun y : K * Z => y.2 = n) l.
Proof.
  intros Hx. induction l as [|y l IH]; cbn [Counter.insert_desc].
  - by rewrite filter_cons_False.
  - destruct (Z.ltb_spec x.2 y.2) as [Hlt|Hge].
    + rewrite !(filter_cons _ y), IH. done.
    + by rewrite (filter_cons_False _ x).
Qed.

(** The sort is stable: the entries with one given count keep the order
    they have in the counter. *)
Lemma filter_sorted_desc n c :
  filter (fun y : K * Z => y.2 = n) (Counter.sorted_desc c)
  = filter (fun y : K * Z => y.2 = n) c.
Proof.
  unfold Counter.sorted_desc.
  induction c as [|x c IH]; [done|].
  cbn [foldr]. destruct (decide (x.2 = n)) as [Hx|Hx].
  - rewrite filter_insert_desc_eq, IH, filter_cons_True by done. done.
  - rewrite filter_insert_desc_ne, IH, filter_cons_False by done. done.
Qed.

(** The sort puts larger counts first. *)
Lemma insert_desc_Sorted x (l : list (K * Z)) :
  Sorted (fun y z : K * Z => z.2 <= y.2) l ->
  Sorted (fun y z : K * Z => z.2 <= y.2) (Counter.insert_desc x l).
Proof.
  induction 1 as [|y l Hl IH Hhd]; cbn [Counter.insert_desc].
  - repeat constructor.
  - destruct (Z.ltb_spec x.2 y.2) as [Hlt|Hge].
    + constructor; [done|].
      destruct Hhd as [|z l Hz]; cbn [Counter.insert_desc].
      * constructor. lia.
      * destruct (Z.ltb_spec x.2 z.2); constructor; lia.
    + constructor; [by constructor|]. constructor. lia.
Qed.

Lemma sorted_desc_Sorted c :
  Sorted (fun y z : K * Z => z.2 <= y.2) (Counter.sorted_desc c).
Proof.
  unfold Counter.sorted_desc. induction c as [|x c IH]; [constructor|].
  cbn [foldr]. by apply insert_desc_Sorted.
Qed.

Lemma filter_take_prefix {A : Type} (P : A -> Prop) `{forall a, Decision (P a)}
    (m : nat) (l : list A) :
  filter P (take m l) `prefix_of` filter P l.
Proof.
  exists (filter P (drop m l)). by rewrite <- filter_app, take_drop.
Qed.

(** The keys that hold the count [n], read off the entries or off the
    keys. *)
Lemma filter_count_keys n c :
  NoDup (Counter.keys c) ->
  (filter (fun y : K * Z => y.2 = n) c).*1
  = filter (fun k => Counter.get k c = n) (Counter.keys c).
Proof.
  intros Hnd.
  assert (forall l : list (K * Z), (forall y, y ∈ l -> y ∈ c) ->
            (filter (fun y : K * Z => y.2 = n) l).*1
            = filter (fun k => Counter.get k c = n) (l.*1)) as Hgen.
  { induction l as [|[k0 n0] l IH]; intros Hsub; [done|].
    rewrite fmap_cons, !filter_cons. cbn [fst snd].
    rewrite (get_elem_of k0 n0 c Hnd) by (apply Hsub; left).
    rewrite <- IH by (intros y Hy; apply Hsub; by right).
    by destruct (decide (n0 = n)). }
  by apply Hgen.
Qed.

End Ties.

Lemma insert_desc_Permutation {K : Type} (x : K * Z) (l : list (K * Z)) :
  Counter.insert_desc x l ≡ₚ x :: l.
Proof.
  induction l as [|y l IH]; cbn [Counter.insert_desc]; [done|].
  destruct (x.2 <? y.2); [|done]. rewrite IH. apply perm_swap.
Qed.

Lemma sorted_desc_Permutation {K : Type} (c : list (K * Z)) : Counter.sorted_desc c ≡ₚ c.
Proof.
  unfold Counter.sorted_desc. induction c as [|x c IH]; [done|].
  cbn [foldr]. by rewrite insert_desc_Permutation, IH.
Qed.

Lemma aggregate_counters (rs : list record) (c : option Z) (s : TrafficAnalyzer) :
  let s' := aggregate rs c s in
  total_requests s' = total_requests s + Z.of_nat (length rs)
  /\ method_counter s'
     = foldl (fun acc k => Counter.incr k acc) (method_counter s) (method <$> rs)
  /\ ip_counter s' = foldl (fun acc k => Counter.incr k acc) (ip_counter s) (ip <$> rs)
  /\ url_counter s' = foldl (fun acc k => Counter.incr k acc) (url_counter s) (url <$> rs).
Proof.
  cbv zeta. revert s. induction rs as [|r rs IH]; intros s.
  - cbn. split_and!; [lia|done..].
  - change (aggregate (r :: rs) c s) with (aggregate rs c (process_record s r c)).
    destruct (IH (process_record s r c)) as (-> & -> & -> & ->).
    cbn. split_and!; [lia|done..].
Qed.

Lemma most_common_ties {K : Type} `{EqDecision K}
    (m n : Z) (c : list (K * Z)) :
  NoDup (Counter.keys c) ->
  (filter (fun y : K * Z => y.2 = n) (Counter.most_common m c)).*1
  `prefix_of` filter (fun k => Counter.get k c = n) (Counter.keys c).
Proof.
  intros Hnd. rewrite <- filter_count_keys by done.
  rewrite <- (filter_sorted_desc n c). unfold Counter.most_common.
  exists ((filter (fun y : K * Z => y.2 = n)
             (drop (Z.to_nat m) (Counter.sorted_desc c))).*1).
  by rewrite <- fmap_app, <- filter_app, take_drop.
Qed.

Lemma top_lines_imap (f : Z -> string * Z -> string) (l : list (string * Z)) :
  (fun e : Z * (string * Z) => f e.1 e.2) <$> enumerate1 l
  = imap (fun i e => f (Z.of_nat i + 1) e) l.
Proof. unfold enumerate1. by rewrite fmap_imap. Qed.

Lemma most_common_Sorted {K : Type} `{EqDecision K} (m : Z) (c : list (K * Z)) :
  Sorted (fun y z : K * Z => z.2 <= y.2) (Counter.most_common m c).
Proof.
  unfold Counter.most_common.
  pose proof (sorted_desc_Sorted c) as Hs. revert Hs.
  generalize (Counter.sorted_desc c). intros l.
  revert l. induction (Z.to_nat m) as [|k IH]; intros l Hs; [constructor|].
  destruct l as [|x l]; [constructor|]. cbn [take].
  apply Sorted_inv in Hs as [Hs Hx]. constructor; [by apply IH|].
  destruct l as [|y l]; [destruct k; constructor|].
  apply HdRel_inv in Hx. destruct k; constructor. done.
Qed.

(** C10. In a state reached by aggregating the records [rs], each counter
    lists its keys in the order in which the stream first shows them. The
    distribution section prints one line per entry of the stable descending
    sort of [method_counter]: larger counts first, and the methods that
    share a count [n] in first-seen order. The top sections print, numbered
    from 1, the leading entries of the same sort of [ip_counter] and
    [url_counter], larger counts first: the addresses, or URLs, with count
    [n] that are printed are the first ones, in first-seen order, among all
    those with count [n]. The report text is the lines of these sections
    under their headings, joined with the rest, so it is a function of the
    arguments and of the file. The last conjuncts are the three sections
    for [tied_records]. *)
Theorem report_ties_first_seen
    (format_pct format_avg : Z -> Z -> string) (format_hour : Z -> string)
    (a : args) (cutoff : option Z) (rs : list record) (n : Z) :
  let s := aggregate rs cutoff (new_analyzer (args_top a)) in
  let top_ips := Counter.most_common (args_top a) (ip_counter s) in
  let top_urls := Counter.most_common 5 (url_counter s) in
  (Counter.keys (method_counter s) = first_seen (method <$> rs)
   /\ Counter.keys (ip_counter s) = first_seen (ip <$> rs)
   /\ Counter.keys (url_counter s) = first_seen (url <$> rs))
  /\ distribution_lines format_pct s
     = match rs with
       | [] => ["(no data)"]
       | _ :: _ =>
           (fun mc : string * Z =>
              "- " +:+ mc.1 +:+ ": " +:+ format_pct mc.2 (total_requests s) +:+ "%")
             <$> Counter.sorted_desc (method_counter s)
       end
  /\ Sorted (fun y z : string * Z => z.2 <= y.2) (Counter.sorted_desc (method_counter s))
  /\ (filter (fun y : string * Z => y.2 = n) (Counter.sorted_desc (method_counter s))).*1
     = filter (fun k => Counter.get k (method_counter s) = n) (first_seen (method <$> rs))
  /\ (filter (fun y : string * Z => y.2 = n) top_ips).*1
     `prefix_of`
       filter (fun k => Counter.get k (ip_counter s) = n) (first_seen (ip <$> rs))
  /\ (filter (fun y : string * Z => y.2 = n) top_urls).*1
     `prefix_of`
       filter (fun k => Counter.get k (url_counter s) = n) (first_seen (url <$> rs))
  /\ top_ip_lines s a
     = match top_ips with
       | [] => ["(no data)"]
       | _ :: _ =>
           imap (fun i e =>
                   pretty (Z.of_nat i + 1) +:+ ". " +:+ e.1 +:+ ": "
                     +:+ pretty e.2 +:+ " requests") top_ips
       end
  /\ top_url_lines s
     = match top_urls with
       | [] => ["(no data)"]
       | _ :: _ =>
           imap (fun i e =>
                   pretty (Z.of_nat i + 1) +:+ ". " +:+ e.1 +:+ ": " +:+ pretty e.2)
             top_urls
       end
  /\ Sorted (fun y z : string * Z => z.2 <= y.2) top_ips
  /\ Sorted (fun y z : string * Z => z.2 <= y.2) top_urls
  /\ (forall e, e ∈ top_ips -> e.2 = Counter.get e.1 (ip_counter s))
  /\ (forall e, e ∈ top_urls -> e.2 = Counter.get e.1 (url_counter s))
  /\ length top_ips = Nat.min (Z.to_nat (args_top a)) (length (first_seen (ip <$> rs)))
  /\ length top_urls = Nat.min 5 (length (first_seen (url <$> rs)))
  /\ (report_renders a rs cutoff ->
      exists pre mid post : list string,
        generate_report format_pct format_avg format_hour s a cutoff
        = String.concat nl
            (pre ++ ["Request distribution:"] ++ distribution_lines format_pct s
             ++ mid ++ ["Top " +:+ pretty (args_top a) +:+ " active IPs:"]
             ++ top_ip_lines s a
             ++ [""; "Top 5 requested URLs:"] ++ top_url_lines s
             ++ post))
  /\ (let s0 := aggregate tied_records None (new_analyzer 2) in
      distribution_lines format_pct s0
      = [ "- PUT: " +:+ format_pct 3 7 +:+ "%";
          "- POST: " +:+ format_pct 2 7 +:+ "%";
          "- GET: " +:+ format_pct 2 7 +:+ "%" ]
      /\ top_ip_lines s0 (mkArgs None None None None 2)
         = [ "1. c: 3 requests"; "2. b: 2 requests" ]
      /\ top_ip_lines s0 (mkArgs None None None None 3)
         = [ "1. c: 3 requests"; "2. b: 2 requests"; "3. a: 2 requests" ]
      /\ top_url_lines s0
         = [ "1. /x: 2"; "2. /y: 2"; "3. /z: 1"; "4. /w: 1"; "5. /v: 1" ]).
Proof.
  cbv zeta.
  destruct (aggregate_counters rs cutoff (new_analyzer (args_top a)))
    as (Htot & Hm & Hi & Hu).
  cbn [new_analyzer total_requests method_counter ip_counter url_counter] in *.
  assert (Counter.keys (method_counter (aggregate rs cutoff (new_analyzer (args_top a))))
          = first_seen (method <$> rs)) as Hkm.
  { rewrite Hm. exact (keys_foldl_incr _ []). }
  assert (Counter.keys (ip_counter (aggregate rs cutoff (new_analyzer (args_top a))))
          = first_seen (ip <$> rs)) as Hki.
  { rewrite Hi. exact (keys_foldl_incr _ []). }
  assert (Counter.keys (url_counter (aggregate rs cutoff (new_analyzer (args_top a))))
          = first_seen (url <$> rs)) as Hku.
  { rewrite Hu. exact (keys_foldl_incr _ []). }
  pose proof (aggregate_wf rs cutoff _ (new_analyzer_wf (args_top a)))
    as [[Hndi Hpi] [Hndu Hpu] [Hndm _] _ _].
  set (s := aggregate rs cutoff (new_analyzer (args_top a))) in *.
  assert (forall (m : Z) (c : list (string * Z)) e,
            NoDup (Counter.keys c) ->
            e ∈ Counter.most_common m c -> e.2 = Counter.get e.1 c) as Hget.
  { intros m c [k v] Hnd Hin. cbn [fst snd]. symmetry.
    apply get_elem_of; [done|].
    rewrite <- (sorted_desc_Permutation c).
    unfold Counter.most_common in Hin.
    rewrite <- (take_drop (Z.to_nat m) (Counter.sorted_desc c)).
    apply elem_of_app. by left. }
  assert (forall (m : Z) (c : list (string * Z)),
            length (Counter.most_common m c)
            = Nat.min (Z.to_nat m) (length (Counter.keys c))) as Hlen.
  { intros m c. unfold Counter.most_common, Counter.keys.
    by rewrite length_take, (Permutation_length (sorted_desc_Permutation _)),
      length_fmap. }
  split_and!; [done..| | | | | | | | | | | | | |
               |vm_compute; reflexivity|vm_compute; reflexivity
               |vm_compute; reflexivity|vm_compute; reflexivity].
  - unfold distribution_lines. rewrite Htot.
    destruct rs as [|r rs]; [done|].
    destruct (Z.eqb_spec (0 + Z.of_nat (length (r :: rs))) 0) as [H0|_]; [|done].
    cbn [length] in H0. lia.
  - apply sorted_desc_Sorted.
  - rewrite filter_sorted_desc, <- Hkm. by apply filter_count_keys.
  - rewrite <- Hki. by apply most_common_ties.
  - rewrite <- Hku. by apply most_common_ties.
  - unfold top_ip_lines.
    destruct (Counter.most_common (args_top a) (ip_counter s)) as [|x l]; [done|].
    exact (top_lines_imap
             (fun i e => pretty i +:+ ". " +:+ e.1 +:+ ": " +:+ pretty e.2 +:+ " requests")
             (x :: l)).
  - unfold top_url_lines.
    destruct (Counter.most_common 5 (url_counter s)) as [|x l]; [done|].
    exact (top_lines_imap
             (fun i e => pretty i +:+ ". " +:+ e.1 +:+ ": " +:+ pretty e.2) (x :: l)).
  - apply most_common_Sorted.
  - apply most_common_Sorted.
  - intros e. by apply Hget.
  - intros e. by apply Hget.
  - by rewrite Hlen, Hki.
  - by rewrite Hlen, Hku.
  - intros _. unfold generate_report.
    exists
      ([ "====== TRAFFIC ANALYSIS REPORT ======" +:+ nl; "Filter settings:" ]
       ++ filter_settings_lines a
       ++ [ ""; "Basic statistics:";
            "Total requests: " +:+ pretty (total_requests s);
            "Unique IPs: " +:+ pretty (Z.of_nat (size (unique_ips s)));
            "Total data transferred: " +:+ pretty (total_data s)
              +:+ " (" +:+ human_readable_bytes (total_data s) +:+ ")";
            "" ])%list,
      [ ""; "Performance metrics:";
        "- Successful requests (2xx): " +:+ pretty (success_count s);
        "- Client errors (4xx): " +:+ pretty (client_error_count s);
        "- Server errors (5xx): " +:+ pretty (server_error_count s);
        "- Average response size (2xx): " +:+
          (if success_count s =? 0 then format_2f 0 1
           else format_avg (success_size_sum s) (success_count s))
          +:+ " bytes";
        "" ],
      ([ ""; "Recent activity (last 24h):" ] ++ recent_activity_lines format_hour s cutoff)%list.
    apply (f_equal (String.concat nl)). unfold report_lines.
    rewrite <- !app_assoc. reflexivity.
Qed.

(** * Further properties *)

(** ** [parse_args] *)

Lemma contains_lstrip (c : ascii) (s : string) :
  Py.contains c (Py.lstrip s) = true -> Py.contains c s = true.
Proof.
  induction s as [|c' s IH]; cbn [Py.lstrip Py.contains]; [done|].
  destruct (Py.isspace c'); [|done].
  intros H. rewrite (IH H). apply orb_true_r.
Qed.

Lemma contains_rev_app (c : ascii) (s1 s2 : string) :
  Py.contains c (String.rev_app s1 s2) = Py.contains c s1 || Py.contains c s2.
Proof.
  revert s2. induction s1 as [|c' s1 IH]; intros s2; cbn [String.rev_app Py.contains]; [done|].
  rewrite IH. cbn [Py.contains]. destruct (Ascii.eqb c' c), (Py.contains c s1); done.
Qed.

Lemma contains_lstrip_int (c : ascii) (s : string) :
  Py.contains c (Py.lstrip_int s) = true -> Py.contains c s = true.
Proof.
  induction s as [|c' s IH]; cbn [Py.lstrip_int Py.contains]; [done|].
  destruct (Py.isspace_int c'); [|done].
  intros H. rewrite (IH H). apply orb_true_r.
Qed.

Lemma digit_value_bounds (c : ascii) (d : Z) : Py.digit_value c = Some d -> 0 <= d <= 9.
Proof.
  unfold Py.digit_value. intros H.
  destruct (Z.leb_spec 48 (Z.of_nat (nat_of_ascii c)));
    destruct (Z.leb_spec (Z.of_nat (nat_of_ascii c)) 57); simplify_eq/=; lia.
Qed.

Lemma int_digits_ge (s : string) (acc : Z) (b : bool) (n : Z) :
  0 <= acc -> Py.int_digits s acc b = Some n -> acc <= n.
Proof.
  revert acc b. induction s as [|c s IH]; intros acc b Hacc; cbn [Py.int_digits].
  - destruct b; intros; simplify_eq. lia.
  - destruct (Py.digit_value c) as [d|] eqn:Hd.
    + apply digit_value_bounds in Hd. intros H%IH; lia.
    + destruct (Ascii.eqb c "_" && b); [by apply IH|].
      destruct (b && Py.only_isspace_int (String c s)); intros; simplify_eq. lia.
Qed.

(** A text without a minus sign that [int] accepts stands for a number that
    is not negative. *)
Lemma int_without_minus (s : string) (n : Z) :
  Py.contains "-"%char s = false -> Py.int s = Ok n -> 0 <= n.
Proof.
  intros Hno. unfold Py.int.
  assert (forall d k, Py.int_unsigned d = Ok k -> 0 <= k) as Hu.
  { intros d k. unfold Py.int_unsigned.
    destruct (Py.int_digits d 0 false) as [k'|] eqn:E; [|done].
    destruct (Py.int_max_str_digits <? Py.digit_count d); [done|].
    intros [= <-]. by apply int_digits_ge in E. }
  destruct (Py.lstrip_int s) as [|c d] eqn:Hs; [done|].
  destruct (Ascii.eqb c "+"%char); [apply Hu|].
  destruct (Ascii.eqb_spec c "-"%char) as [->|_]; [|apply Hu].
  pose proof (contains_lstrip_int "-"%char s) as H.
  rewrite Hs in H. cbn in H. rewrite Hno in H. by specialize (H eq_refl).
Qed.

Lemma split_once_found (c : ascii) (s : string) :
  Py.contains c s = true ->
  exists head tail, Py.split_once c s = [head; tail] /\ Py.contains c head = false.
Proof.
  induction s as [|c' s IH]; cbn [Py.contains Py.split_once]; [done|].
  destruct (Ascii.eqb c' c) eqn:E; cbn [orb].
  - intros _. by exists EmptyString, s.
  - intros (head & tail & -> & Hh)%IH. exists (String c' head), tail.
    split; [done|]. cbn [Py.contains]. by rewrite E.
Qed.

Lemma status_filter_of_range (status : option string) (lo hi : Z) :
  status_filter_of status = inr (Some (lo, hi)) -> 0 <= lo <= hi.
Proof.
  unfold status_filter_of. destruct (Py.truthy_str status); [|done].
  destruct (Py.contains "-"%char (default "" status)) eqn:Hdash.
  - apply split_once_found in Hdash as (head & tail & Hsplit & Hhead).
    unfold parse_status_range. rewrite Hsplit. cbn [Py.unpack2 bind fst snd].
    destruct (Py.int head) as [l|] eqn:El; cbn [bind]; [|done].
    destruct (Py.int tail) as [h|] eqn:Eh; cbn [bind]; [|done].
    destruct (Z.ltb_spec h l); [done|]. intros [= <- <-].
    apply int_without_minus in El; [lia|done].
  - destruct (Py.int (default "" status)) as [code|] eqn:E; [|done].
    intros [= <- <-]. apply int_without_minus in E; [lia|done].
Qed.

(** X1. Whatever [parse_args] accepts is well formed: the log file passed
    both file tests; [--top] is positive; the start and end bounds are the
    ones given and, when both are non-zero, in order; a status filter has
    [0 <= low <= high]; and the method is the empty text or one of
    [ALLOWED_METHODS]. *)
Theorem parse_args_accepted
    (isfile readable : string -> bool) (ns : namespace) (a : args) :
  parse_args isfile readable ns = Accepted a ->
  isfile (ns_logfile ns) = true
  /\ readable (ns_logfile ns) = true
  /\ 0 < args_top a
  /\ args_top a = ns_top ns
  /\ args_start a = ns_start ns
  /\ args_end a = ns_end ns
  /\ (forall s e, args_start a = Some s -> args_end a = Some e ->
                  s <> 0 -> e <> 0 -> s <= e)
  /\ (forall lo hi, args_status_filter a = Some (lo, hi) -> 0 <= lo <= hi)
  /\ (forall m, args_method a = Some m -> m = "" \/ m ∈ ALLOWED_METHODS).
Proof.
  unfold parse_args.
  destruct (isfile (ns_logfile ns)); cbn [negb]; [|done].
  destruct (readable (ns_logfile ns)); cbn [negb]; [|done].
  destruct (Py.truthy_str (ns_method ns)
            && negb (bool_decide
                       (default "" (if Py.truthy_str (ns_method ns)
                                    then Py.upper <$> ns_method ns
                                    else ns_method ns) ∈ ALLOWED_METHODS))) eqn:Hm;
    [done|].
  destruct (status_filter_of (ns_status ns)) as [msg|sf] eqn:Hsf; [done|].
  destruct (Py.truthy_int (ns_start ns) && Py.truthy_int (ns_end ns)
            && (default 0 (ns_end ns) <? default 0 (ns_start ns))) eqn:Hse; [done|].
  destruct (Z.leb_spec (ns_top ns) 0) as [|Htop]; [done|].
  intros [= <-]. cbn.
  split_and!; try done.
  - intros s e Hs0 He0 Hs He. rewrite Hs0, He0 in Hse. cbn in Hse.
    destruct (Z.eqb_spec s 0); [done|]. destruct (Z.eqb_spec e 0); [done|].
    cbn in Hse. destruct (Z.ltb_spec e s); [done|lia].
  - intros lo hi Heq. rewrite Heq in Hsf. by apply status_filter_of_range in Hsf.
  - intros m Hmeq. destruct (ns_method ns) as [m0|]; cbn in *.
    + destruct (String.eqb m0 "") eqn:E; cbn in *.
      * apply String.eqb_eq in E. left. congruence.
      * right. simplify_eq. apply negb_false_iff, bool_decide_eq_true in Hm. done.
    + done.
Qed.

Lemma parse_args_accepted_witness :
  parse_args (fun _ => true) (fun _ => true)
    (mkNamespace "access.log" (Some "get") (Some "400-499") None None 3)
  = Accepted (mkArgs (Some "GET") (Some (400, 499)) None None 3)
  /\ 0 < args_top (mkArgs (Some "GET") (Some (400, 499)) None None 3).
Proof.
  assert (parse_args (fun _ => true) (fun _ => true)
            (mkNamespace "access.log" (Some "get") (Some "400-499") None None 3)
          = Accepted (mkArgs (Some "GET") (Some (400, 499)) None None 3)) as Hacc
    by (vm_compute; reflexivity).
  split; [exact Hacc|].
  destruct (parse_args_accepted _ _ _ _ Hacc) as (_ & _ & H & _). exact H.
Defined.

Lemma upper_char_idempotent (c : ascii) : Py.upper_char (Py.upper_char c) = Py.upper_char c.
Proof. destruct c as [[] [] [] [] [] [] [] []]; reflexivity. Qed.

Lemma upper_idempotent (s : string) : Py.upper (Py.upper s) = Py.upper s.
Proof.
  induction s as [|c s IH]; [done|].
  cbn [Py.upper]. by rewrite upper_char_idempotent, IH.
Qed.

(** X2. The method filter is read without regard to case: [parse_args]
    gives the same result, accepted arguments or error message, for a method
    and for its upper-case form. *)
Theorem parse_args_method_case
    (isfile readable : string -> bool)
    (logfile m : string) (st : option string) (s e : option Z) (top : Z) :
  parse_args isfile readable (mkNamespace logfile (Some m) st s e top)
  = parse_args isfile readable (mkNamespace logfile (Some (Py.upper m)) st s e top).
Proof.
  unfold parse_args. cbn [ns_logfile ns_method ns_status ns_start ns_end ns_top].
  assert (Py.truthy_str (Some (Py.upper m)) = Py.truthy_str (Some m)) as ->.
  { by destruct m. }
  destruct (Py.truthy_str (Some m)) eqn:Ht; cbn [fmap option_fmap option_map default].
  - by rewrite upper_idempotent.
  - destruct m; [done|discriminate].
Qed.

(** ** The fields of a parsed record *)

Lemma contains_app (c : ascii) (s1 s2 : string) :
  Py.contains c (s1 +:+ s2) = Py.contains c s1 || Py.contains c s2.
Proof.
  induction s1 as [|c' s1 IH]; [done|].
  change (String c' s1 +:+ s2) with (String c' (s1 +:+ s2)).
  cbn [Py.contains]. rewrite IH. by rewrite orb_assoc.
Qed.

Lemma split_from_tokens (s : string) (tok : option string) :
  (forall t, tok = Some t -> token t) -> Forall token (Py.split_from s tok).
Proof.
  revert tok. induction s as [|c s IH]; intros tok Htok; cbn [Py.split_from].
  - destruct tok as [t|]; [|constructor]. constructor; [by apply Htok|constructor].
  - destruct (Py.isspace c) eqn:Hc.
    + destruct tok as [t|]; [constructor; [by apply Htok|]|]; by apply IH.
    + apply IH. intros t [= <-]. split.
      * destruct tok as [t0|]; cbn; [destruct t0|]; discriminate.
      * intros c'. rewrite contains_app. cbn [Py.contains].
        rewrite orb_false_r. intros [H|H]%orb_true_iff.
        -- destruct tok as [t0|]; cbn in H; [|done]. by apply (Htok t0).
        -- apply Ascii.eqb_eq in H. by subst.
Qed.

Lemma isspace_upper_char (c : ascii) : Py.isspace (Py.upper_char c) = Py.isspace c.
Proof. destruct c as [[] [] [] [] [] [] [] []]; reflexivity. Qed.

Lemma upper_token (t : string) : token t -> token (Py.upper t).
Proof.
  intros [Hne Hsp]. split.
  - destruct t; [done|discriminate].
  - clear Hne. induction t as [|c' t IH]; intros c; cbn [Py.upper Py.contains]; [done|].
    intros [H|H]%orb_true_iff.
    + apply Ascii.eqb_eq in H. subst c. rewrite isspace_upper_char.
      apply Hsp. cbn [Py.contains]. by rewrite Ascii.eqb_refl.
    + apply IH; [|done]. intros c0 Hc0. apply Hsp. cbn [Py.contains].
      rewrite Hc0. apply orb_true_r.
Qed.

(** X3. In a record returned by [parse_log_line] the address, the method
    and the URL are tokens (not empty, no whitespace), and the method is in
    upper case already: putting it in upper case again changes nothing. *)
Theorem parsed_record_fields (line : string) (r : record) :
  parse_log_line line = Ok (Some r) ->
  token (ip r) /\ token (method r) /\ token (url r)
  /\ Py.upper (method r) = method r.
Proof.
  unfold parse_log_line.
  pose proof (split_from_tokens (Py.strip line) None) as Htok.
  fold (Py.split (Py.strip line)) in Htok. fold (parts_of line) in Htok.
  destruct (parts_of line) as [|p0 [|p1 [|p2 [|p3 [|p4 [|p5 [|p6 ps]]]]]]]; try done.
  cbn.
  destruct (Py.int p0) as [f0|[]]; cbn; try done.
  destruct (Py.int p4) as [f4|[]]; cbn; try done.
  destruct (Py.int p5) as [f5|[]]; cbn; try done.
  intros [= <-]. cbn.
  specialize (Htok ltac:(done)).
  apply Forall_cons in Htok as [_ Htok].
  apply Forall_cons in Htok as [H1 Htok].
  apply Forall_cons in Htok as [H2 Htok].
  apply Forall_cons in Htok as [H3 _].
  split_and!; [done|by apply upper_token|done|apply upper_idempotent].
Qed.

Lemma parsed_record_fields_witness :
  Py.upper (method (mkRecord 1000 "10.0.0.1" "GET" "/a" 200 500))
  = method (mkRecord 1000 "10.0.0.1" "GET" "/a" 200 500).
Proof.
  destruct (parsed_record_fields "1000 10.0.0.1 get /a 200 500"
              (mkRecord 1000 "10.0.0.1" "GET" "/a" 200 500)) as (_ & _ & _ & H).
  - vm_compute. reflexivity.
  - exact H.
Defined.

(** ** The scan for the maximum *)

(** X4. [find_max_timestamp] returns [None] exactly when no line of the
    file parses and passes the filters; it returns [m] exactly when [m] is
    the timestamp of such a line and no such line has a later one. It never
    raises. *)
Theorem find_max_timestamp_spec (lines : list string) (a : args) :
  (find_max_timestamp lines a = Ok None <-> matching lines a = [])
  /\ (forall m,
        find_max_timestamp lines a = Ok (Some m)
        <-> (exists r, r ∈ matching lines a /\ timestamp r = m)
            /\ forall r, r ∈ matching lines a -> timestamp r <= m)
  /\ exists max_ts, find_max_timestamp lines a = Ok max_ts.
Proof.
  split_and!.
  - apply find_max_timestamp_None.
  - intros m. split.
    + intros H%find_max_timestamp_Some. tauto.
    + intros [(r & Hr & Hm) Hall].
      unfold find_max_timestamp. rewrite find_max_from_matching.
      destruct (foldl max_step None (timestamp <$> matching lines a)) as [m'|] eqn:E.
      * apply foldl_max_step_Some in E as (Hall' & _ & [?|Hin]); [done|].
        apply list_elem_of_fmap in Hin as (r' & -> & Hr').
        specialize (Hall r' Hr').
        assert (timestamp r <= timestamp r').
        { apply Hall'. apply list_elem_of_fmap. by exists r. }
        do 2 f_equal. lia.
      * apply foldl_max_step_is_Some in E as [_ E]. apply fmap_nil_inv in E.
        rewrite E in Hr. by apply elem_of_nil in Hr.
  - unfold find_max_timestamp. rewrite find_max_from_matching. by eexists.
Qed.

(** ** The aggregation pass *)

Lemma process_lines_warnings (lines : list string) (n : Z) (a : args)
    (cutoff : option Z) (s : TrafficAnalyzer) (w : list string) :
  process_lines lines n a cutoff s w
  = Ok (aggregate (matching lines a) cutoff s, (w ++ warnings_from n lines)%list).
Proof.
  revert n s w. induction lines as [|line lines IH]; intros n s w.
  - cbn. by rewrite app_nil_r.
  - cbn [process_lines]. rewrite parse_log_line_Ok. cbn [bind].
    assert (warnings_from n (line :: lines)
            = (match parsed line with
               | None => ["Warning: invalid format at line " +:+ pretty n]
               | Some _ => []
               end ++ warnings_from (n + 1) lines)%list) as ->.
    { unfold warnings_from. rewrite imap_cons. cbn [omap list_omap fst snd].
      replace (Z.of_nat 0 + n) with n by lia.
      rewrite (imap_ext _ (fun i line0 => (Z.of_nat i + (n + 1), line0)) lines).
      - by destruct (parsed line).
      - intros i x _. cbn. f_equal. lia. }
    unfold matching. cbn [omap list_omap].
    destruct (parsed line) as [r|]; cbn.
    + destruct (matches_filters r a); cbn; apply IH.
    + rewrite IH. by rewrite <- app_assoc.
Qed.

(** X5. [process_file] never raises. The analyzer it returns is the fold of
    [process_record] over the lines that parse and pass the filters, in file
    order, so lines that do not parse and lines the filters turn down leave
    no trace in it; the warnings are, in file order, one for each line that
    does not parse, with the 1-based number of the line. *)
Theorem process_file_spec (lines : list string) (a : args) (cutoff : option Z) :
  process_file lines a cutoff
  = Ok (aggregate (matching lines a) cutoff (new_analyzer (args_top a)),
        warnings_from 1 lines).
Proof. unfold process_file. by rewrite process_lines_warnings. Qed.

(** ** What the aggregation counts *)

Lemma count_if_cons (p : record -> bool) (r : record) (rs : list record) :
  count_if p (r :: rs) = (if p r then 1 else 0) + count_if p rs.
Proof.
  unfold count_if. rewrite filter_cons.
  destruct (p r); [rewrite decide_True by done|rewrite decide_False by done];
    cbn [length]; lia.
Qed.

Lemma count_if_bounds (p : record -> bool) (rs : list record) :
  0 <= count_if p rs <= Z.of_nat (length rs).
Proof. unfold count_if. pose proof (length_filter (fun r => p r = true) rs). lia. Qed.

Lemma count_if_ext (p q : record -> bool) (rs : list record) :
  (forall r, r ∈ rs -> p r = q r) -> count_if p rs = count_if q rs.
Proof.
  induction rs as [|r rs IH]; intros H; [done|].
  rewrite !count_if_cons, IH, (H r) by (intros; (apply H; by right) || left). done.
Qed.

Lemma aggregate_counts (rs : list record) (c : option Z) (s : TrafficAnalyzer) :
  let s' := aggregate rs c s in
  total_requests s' = total_requests s + Z.of_nat (length rs)
  /\ total_data s' = total_data s + sum_of size_ rs
  /\ unique_ips s' = list_to_set (ip <$> rs) ∪ unique_ips s
  /\ (forall k, Counter.get k (ip_counter s')
                = Counter.get k (ip_counter s)
                  + count_if (fun r => bool_decide (ip r = k)) rs)
  /\ (forall k, Counter.get k (url_counter s')
                = Counter.get k (url_counter s)
                  + count_if (fun r => bool_decide (url r = k)) rs)
  /\ (forall k, Counter.get k (method_counter s')
                = Counter.get k (method_counter s)
                  + count_if (fun r => bool_decide (method r = k)) rs)
  /\ success_count s' = success_count s + count_if is_2xx rs
  /\ success_size_sum s'
     = success_size_sum s + sum_of (fun r => if is_2xx r then size_ r else 0) rs
  /\ client_error_count s' = client_error_count s + count_if is_4xx rs
  /\ server_error_count s' = server_error_count s + count_if is_5xx rs
  /\ (forall k, Counter.get k (recent_ip_counts s')
                = Counter.get k (recent_ip_counts s)
                  + count_if (fun r => in_recent_window r c && bool_decide (ip r = k)) rs)
  /\ (forall h, Counter.get h (requests_per_hour s')
                = Counter.get h (requests_per_hour s)
                  + count_if (fun r => in_hour_bucket c r
                                       && bool_decide (hour_index r (default 0 c) = h)) rs).
Proof.
  cbv zeta. revert s. induction rs as [|r rs IH]; intros s.
  - unfold count_if. cbn. split_and!; intros; try lia. by rewrite (left_id_L ∅ (∪)).
  - change (aggregate (r :: rs) c s) with (aggregate rs c (process_record s r c)).
    destruct (IH (process_record s r c))
      as (H1 & H2 & H3 & H4 & H5 & H6 & H7 & H8 & H9 & H10 & H11 & H12).
    split_and!.
    + rewrite H1. cbn [process_record total_requests length]. lia.
    + rewrite H2. cbn [process_record total_data sum_of foldr]. unfold sum_of. lia.
    + rewrite H3. cbn [process_record unique_ips].
      rewrite fmap_cons, list_to_set_cons.
      by rewrite (assoc_L (∪)), (comm_L (∪) (list_to_set (ip <$> rs))).
    + intros k. rewrite H4, count_if_cons. cbn [process_record ip_counter].
      rewrite get_incr. repeat case_bool_decide; repeat case_decide; congruence || lia.
    + intros k. rewrite H5, count_if_cons. cbn [process_record url_counter].
      rewrite get_incr. repeat case_bool_decide; repeat case_decide; congruence || lia.
    + intros k. rewrite H6, count_if_cons. cbn [process_record method_counter].
      rewrite get_incr. repeat case_bool_decide; repeat case_decide; congruence || lia.
    + rewrite H7, count_if_cons. cbn [process_record success_count].
      destruct (is_2xx r); lia.
    + rewrite H8. cbn [process_record success_size_sum sum_of foldr]. unfold sum_of.
      destruct (is_2xx r); lia.
    + rewrite H9, count_if_cons. cbn [process_record client_error_count].
      unfold is_2xx, is_4xx.
      destruct ((200 <=? status r) && (status r <? 300)) eqn:E2;
        destruct ((400 <=? status r) && (status r <? 500)) eqn:E4; lia.
    + rewrite H10, count_if_cons. cbn [process_record server_error_count].
      unfold is_2xx, is_4xx, is_5xx.
      destruct ((200 <=? status r) && (status r <? 300)) eqn:E2;
        destruct ((400 <=? status r) && (status r <? 500)) eqn:E4;
        destruct ((500 <=? status r) && (status r <? 600)) eqn:E5; lia.
    + intros k. rewrite H11, count_if_cons. cbn [process_record recent_ip_counts].
      destruct (in_recent_window r c); cbn [andb]; rewrite ?get_incr;
        repeat case_bool_decide; repeat case_decide; congruence || lia.
    + intros h. rewrite H12, count_if_cons. cbn [process_record requests_per_hour].
      unfold in_hour_bucket.
      destruct (in_recent_window r c); cbn [andb]; [|lia].
      destruct ((0 <=? hour_index r (default 0 c)) && (hour_index r (default 0 c) <? 24));
        cbn [andb]; rewrite ?get_incr;
        repeat case_bool_decide; repeat case_decide; congruence || lia.
Qed.

(** X6. The analyzer built from the records [rs] holds plain counts:
    [total_requests] is the number of records, [total_data] the sum of
    their sizes, [unique_ips] the set of their addresses; each counter
    gives a key the number of records that carry it; the three status
    counters hold the numbers of records with a 2xx, 4xx and 5xx status,
    and [success_size_sum] the sum of the sizes of the 2xx ones. *)
Theorem aggregation_is_counting (rs : list record) (c : option Z) (n : Z) :
  let s := aggregate rs c (new_analyzer n) in
  top_n s = n
  /\ total_requests s = Z.of_nat (length rs)
  /\ total_data s = sum_of size_ rs
  /\ unique_ips s = list_to_set (ip <$> rs)
  /\ (forall k, Counter.get k (ip_counter s)
                = count_if (fun r => bool_decide (ip r = k)) rs)
  /\ (forall k, Counter.get k (url_counter s)
                = count_if (fun r => bool_decide (url r = k)) rs)
  /\ (forall k, Counter.get k (method_counter s)
                = count_if (fun r => bool_decide (method r = k)) rs)
  /\ success_count s = count_if is_2xx rs
  /\ success_size_sum s = sum_of (fun r => if is_2xx r then size_ r else 0) rs
  /\ client_error_count s = count_if is_4xx rs
  /\ server_error_count s = count_if is_5xx rs.
Proof.
  cbv zeta.
  destruct (aggregate_counts rs c (new_analyzer n))
    as (H1 & H2 & H3 & H4 & H5 & H6 & H7 & H8 & H9 & H10 & _ & _).
  cbn [new_analyzer total_requests total_data unique_ips ip_counter url_counter
       method_counter success_count success_size_sum client_error_count
       server_error_count Counter.get] in *.
  rewrite (right_id_L ∅ (∪)) in H3.
  split_and!; try done; try lia.
  - assert (forall s0, top_n (aggregate rs c s0) = top_n s0) as Ht.
    { clear. induction rs as [|r rs IH]; intros s0; [done|].
      change (aggregate (r :: rs) c s0) with (aggregate rs c (process_record s0 r c)).
      by rewrite IH. }
    by rewrite Ht.
Qed.

(** ** The recent window *)

Lemma hour_index_eq (r : record) (c h : Z) :
  hour_index r c = h <-> c + 3600 * h <= timestamp r < c + 3600 * (h + 1).
Proof.
  unfold hour_index.
  pose proof (Z.div_mod (timestamp r - c) 3600 ltac:(lia)) as Hdm.
  pose proof (Z.mod_pos_bound (timestamp r - c) 3600 ltac:(lia)) as Hb.
  split; [intros <-; lia|]. intros H.
  symmetry. apply (Z.div_unique _ _ h (timestamp r - c - 3600 * h)); lia.
Qed.

(** X7. With a cutoff other than zero, [requests_per_hour] is the hourly
    histogram of the window that starts at the cutoff: for [h] from 0 to 23
    bucket [h] counts the records with timestamp in
    [cutoff + 3600 h, cutoff + 3600 (h + 1)), no other bucket holds
    anything, and [recent_ip_counts] gives an address the number of its
    records at or after the cutoff. *)
Theorem recent_window_counts (rs : list record) (c n : Z) :
  c <> 0 ->
  let s := aggregate rs (Some c) (new_analyzer n) in
  (forall h, 0 <= h < 24 ->
     Counter.get h (requests_per_hour s)
     = count_if (fun r => (c + 3600 * h <=? timestamp r)
                          && (timestamp r <? c + 3600 * (h + 1))) rs)
  /\ (forall h, ~ 0 <= h < 24 -> Counter.get h (requests_per_hour s) = 0)
  /\ (forall k, Counter.get k (recent_ip_counts s)
                = count_if (fun r => (c <=? timestamp r) && bool_decide (ip r = k)) rs).
Proof.
  intros Hc. cbv zeta.
  destruct (aggregate_counts rs (Some c) (new_analyzer n))
    as (_ & _ & _ & _ & _ & _ & _ & _ & _ & _ & H11 & H12).
  cbn [new_analyzer recent_ip_counts requests_per_hour Counter.get default] in *.
  assert (forall r, in_recent_window r (Some c) = (c <=? timestamp r)) as Hw.
  { intros r. unfold in_recent_window. cbn. destruct (Z.eqb_spec c 0); done. }
  split_and!.
  - intros h Hh. rewrite H12, Z.add_0_l. apply count_if_ext. intros r _.
    unfold in_hour_bucket. rewrite Hw. cbn [default].
    pose proof (hour_index_eq r c h) as Hidx.
    pose proof (hour_index_eq r c (hour_index r c)) as Hself.
    case_bool_decide as Hd.
    + apply Hidx in Hd. rewrite <- (proj2 Hidx Hd).
      destruct (Z.leb_spec c (timestamp r)), (Z.leb_spec 0 h), (Z.ltb_spec h 24),
        (Z.leb_spec (c + 3600 * h) (timestamp r)),
        (Z.ltb_spec (timestamp r) (c + 3600 * (h + 1))); cbn; lia.
    + rewrite andb_false_r.
      destruct (Z.leb_spec (c + 3600 * h) (timestamp r)),
        (Z.ltb_spec (timestamp r) (c + 3600 * (h + 1))); cbn; try done.
      exfalso. apply Hd, Hidx. lia.
  - intros h Hh. rewrite H12, Z.add_0_l.
    rewrite (count_if_ext _ (fun _ => false)).
    + clear. unfold count_if. induction rs as [|r rs IH]; [done|].
      rewrite filter_cons_False; done.
    + intros r _. unfold in_hour_bucket. cbn [default].
      case_bool_decide as Hd; [|apply andb_false_r]. rewrite Hd.
      destruct (Z.leb_spec 0 h), (Z.ltb_spec h 24); cbn; rewrite ?andb_false_r; try done.
      lia.
  - intros k. rewrite H11, Z.add_0_l. apply count_if_ext. intros r _. by rewrite Hw.
Qed.

Lemma recent_window_counts_witness :
  Counter.get 1
    (requests_per_hour
       (aggregate [mkRecord 3700 "10.0.0.1" "GET" "/a" 200 1] (Some 100) (new_analyzer 3)))
  = count_if (fun r => (100 + 3600 * 1 <=? timestamp r)
                       && (timestamp r <? 100 + 3600 * (1 + 1)))
      [mkRecord 3700 "10.0.0.1" "GET" "/a" 200 1].
Proof.
  destruct (recent_window_counts [mkRecord 3700 "10.0.0.1" "GET" "/a" 200 1] 100 3)
    as (H & _ & _).
  - lia.
  - apply (H 1). lia.
Defined.

Lemma count_if_pos (p : record -> bool) (rs : list record) :
  count_if p rs <> 0 <-> exists r, r ∈ rs /\ p r = true.
Proof.
  induction rs as [|r rs IH].
  - split; [done|]. intros (r & Hr & _). by apply elem_of_nil in Hr.
  - rewrite count_if_cons. pose proof (count_if_bounds p rs) as Hb. split.
    + intros H. destruct (p r) eqn:E.
      * exists r. split; [left|done].
      * destruct (proj1 IH) as (r' & Hr' & Hp); [lia|]. exists r'. split; [by right|done].
    + intros (r' & [->|Hr']%elem_of_cons & Hp).
      * rewrite Hp. lia.
      * assert (count_if p rs <> 0) by (apply IH; eauto). destruct (p r); lia.
Qed.

Lemma count_if_le (p q : record -> bool) (rs : list record) :
  (forall r, r ∈ rs -> p r = true -> q r = true) -> count_if p rs <= count_if q rs.
Proof.
  induction rs as [|r rs IH]; intros H; [done|].
  rewrite !count_if_cons.
  assert (count_if p rs <= count_if q rs) by (apply IH; intros; apply H; [by right|done]).
  destruct (p r) eqn:E; [rewrite (H r) by (done || left); lia|].
  destruct (q r); lia.
Qed.

Lemma counter_keys_get {K : Type} `{EqDecision K} (c : list (K * Z)) (k : K) :
  counter_wf c -> (k ∈ Counter.keys c <-> Counter.get k c <> 0).
Proof.
  intros [Hnd Hpos]. split.
  - intros ([k' cnt] & -> & Hin)%list_elem_of_fmap. cbn.
    rewrite (get_elem_of k' cnt c Hnd Hin). apply Hpos in Hin. lia.
  - intros H%get_nonzero_elem_of. apply list_elem_of_fmap.
    by exists (k, Counter.get k c).
Qed.

Lemma aggregate_totals (rs : list record) (c : option Z) (s : TrafficAnalyzer) :
  let s' := aggregate rs c s in
  Counter.total (ip_counter s') = Counter.total (ip_counter s) + Z.of_nat (length rs)
  /\ Counter.total (url_counter s') = Counter.total (url_counter s) + Z.of_nat (length rs)
  /\ Counter.total (recent_ip_counts s')
     = Counter.total (recent_ip_counts s) + count_if (fun r => in_recent_window r c) rs
  /\ Counter.total (requests_per_hour s')
     = Counter.total (requests_per_hour s) + count_if (in_hour_bucket c) rs.
Proof.
  cbv zeta. revert s. induction rs as [|r rs IH]; intros s.
  - unfold count_if. cbn. lia.
  - change (aggregate (r :: rs) c s) with (aggregate rs c (process_record s r c)).
    destruct (IH (process_record s r c)) as (-> & -> & -> & ->).
    rewrite !count_if_cons. unfold in_hour_bucket at 2.
    cbn [process_record ip_counter url_counter recent_ip_counts requests_per_hour length].
    rewrite !total_incr.
    destruct (in_recent_window r c); cbn [andb]; rewrite ?total_incr;
      [destruct ((0 <=? hour_index r (default 0 c)) && (hour_index r (default 0 c) <? 24));
       rewrite ?total_incr|]; lia.
Qed.

(** X8. In the analyzer built from any records, the set of addresses is the
    key set of [ip_counter], so the number of unique addresses is the number
    of entries of [ip_counter]; the counts of [ip_counter] and of
    [url_counter] both add up to [total_requests]; and no address has more
    recent requests than requests, so the recent addresses are at most as
    many as the unique ones. *)
Theorem unique_ips_and_counters (rs : list record) (c : option Z) (n : Z) :
  let s := aggregate rs c (new_analyzer n) in
  unique_ips s = list_to_set (Counter.keys (ip_counter s))
  /\ size (unique_ips s) = length (ip_counter s)
  /\ Counter.total (ip_counter s) = total_requests s
  /\ Counter.total (url_counter s) = total_requests s
  /\ (forall k, Counter.get k (recent_ip_counts s) <= Counter.get k (ip_counter s))
  /\ (length (recent_ip_counts s) <= length (ip_counter s))%nat.
Proof.
  cbv zeta.
  pose proof (aggregate_wf rs c _ (new_analyzer_wf n)) as [Hwi _ _ Hwr _].
  destruct (aggregate_counts rs c (new_analyzer n))
    as (H1 & _ & H3 & H4 & _ & _ & _ & _ & _ & _ & H11 & _).
  destruct (aggregate_totals rs c (new_analyzer n)) as (T1 & T2 & _ & _).
  cbn [new_analyzer total_requests unique_ips ip_counter url_counter recent_ip_counts
       Counter.get] in *.
  change (Counter.total []) with 0 in *.
  assert (forall k, Counter.get k (recent_ip_counts (aggregate rs c (new_analyzer n)))
                    <= Counter.get k (ip_counter (aggregate rs c (new_analyzer n)))) as Hle.
  { intros k. rewrite H4, H11. apply Z.add_le_mono_l, count_if_le.
    intros r _ [_ H]%andb_true_iff. done. }
  assert (unique_ips (aggregate rs c (new_analyzer n))
          = list_to_set (Counter.keys (ip_counter (aggregate rs c (new_analyzer n))))) as Hset.
  { rewrite H3, (right_id_L ∅ (∪)). apply set_eq. intros k.
    rewrite !elem_of_list_to_set, (counter_keys_get _ k Hwi), H4, Z.add_0_l, count_if_pos.
    rewrite list_elem_of_fmap. split.
    - intros (r & -> & Hr). exists r. split; [done|]. by apply bool_decide_eq_true.
    - intros (r & Hr & Hk%bool_decide_eq_true). by exists r. }
  split_and!; [done| |lia|lia|done|].
  - rewrite Hset, size_list_to_set by apply Hwi. unfold Counter.keys. by rewrite length_fmap.
  - rewrite <- (length_fmap fst (recent_ip_counts _)), <- (length_fmap fst (ip_counter _)).
    apply submseteq_length, NoDup_submseteq; [apply Hwr|].
    intros k Hk. apply (counter_keys_get _ k Hwr) in Hk. apply (counter_keys_get _ k Hwi).
    pose proof (Hle k) as Hk'.
    assert (0 <= Counter.get k (recent_ip_counts (aggregate rs c (new_analyzer n)))).
    { rewrite H11, Z.add_0_l. apply count_if_bounds. }
    lia.
Qed.

(** X9. Whatever the cutoff, every key of [requests_per_hour] is an hour
    index from 0 to 23 and holds a positive count, and the histogram holds
    at most as many requests as [recent_ip_counts], which holds at most
    [total_requests]. *)
Theorem requests_per_hour_keys (rs : list record) (c : option Z) (n : Z) :
  let s := aggregate rs c (new_analyzer n) in
  (forall h cnt, (h, cnt) ∈ requests_per_hour s -> 0 <= h < 24 /\ 0 < cnt)
  /\ Counter.total (requests_per_hour s) <= Counter.total (recent_ip_counts s)
  /\ Counter.total (recent_ip_counts s) <= total_requests s.
Proof.
  cbv zeta.
  pose proof (aggregate_wf rs c _ (new_analyzer_wf n)) as [_ _ _ _ [Hnd Hpos]].
  destruct (aggregate_counts rs c (new_analyzer n))
    as (H1 & _ & _ & _ & _ & _ & _ & _ & _ & _ & _ & H12).
  destruct (aggregate_totals rs c (new_analyzer n)) as (_ & _ & T3 & T4).
  cbn [new_analyzer total_requests recent_ip_counts requests_per_hour Counter.get] in *.
  change (Counter.total []) with 0 in *.
  split_and!.
  - intros h cnt Hin. split; [|by apply (Hpos h)].
    pose proof (get_elem_of h cnt _ Hnd Hin) as Hget.
    apply Hpos in Hin.
    assert (count_if (fun r => in_hour_bucket c r
                               && bool_decide (hour_index r (default 0 c) = h)) rs <> 0)
      as (r & _ & Hr)%count_if_pos by (rewrite H12 in Hget; lia).
    apply andb_true_iff in Hr as [Hb Hh%bool_decide_eq_true].
    unfold in_hour_bucket in Hb. rewrite Hh in Hb.
    apply andb_true_iff in Hb as [_ Hb]. apply andb_true_iff in Hb as [Hb1 Hb2]. lia.
  - rewrite T3, T4. apply Z.add_le_mono_l, count_if_le.
    intros r _. unfold in_hour_bucket. intros [H _]%andb_true_iff. done.
  - rewrite T3, H1. pose proof (count_if_bounds (fun r => in_recent_window r c) rs). lia.
Qed.

Lemma sum_of_le (f g : record -> Z) (rs : list record) :
  Forall (fun r => f r <= g r) rs -> sum_of f rs <= sum_of g rs.
Proof.
  unfold sum_of. induction 1 as [|r rs Hr _ IH]; cbn [foldr]; lia.
Qed.

(** X10. When no record has a negative size, the bytes of the successful
    requests are between zero and the bytes of all requests. *)
Theorem success_size_within_total (rs : list record) (c : option Z) (n : Z) :
  Forall (fun r => 0 <= size_ r) rs ->
  let s := aggregate rs c (new_analyzer n) in
  0 <= success_size_sum s <= total_data s.
Proof.
  intros Hsz. cbv zeta.
  destruct (aggregate_counts rs c (new_analyzer n))
    as (_ & H2 & _ & _ & _ & _ & _ & H8 & _).
  cbn [new_analyzer total_data success_size_sum] in *. rewrite H2, H8, !Z.add_0_l.
  split.
  - trans (sum_of (fun _ => 0) rs).
    + clear. unfold sum_of. induction rs as [|r rs IH]; cbn [foldr]; lia.
    + apply sum_of_le. eapply Forall_impl; [exact Hsz|]. intros r Hr. cbv beta in *.
      destruct (is_2xx r); lia.
  - apply sum_of_le. eapply Forall_impl; [exact Hsz|]. intros r Hr. cbv beta in *.
    destruct (is_2xx r); lia.
Qed.

Lemma success_size_within_total_witness :
  0 <= success_size_sum
         (aggregate [mkRecord 1 "10.0.0.1" "GET" "/a" 200 7;
                     mkRecord 2 "10.0.0.2" "GET" "/b" 404 5] None (new_analyzer 3))
    <= total_data
         (aggregate [mkRecord 1 "10.0.0.1" "GET" "/a" 200 7;
                     mkRecord 2 "10.0.0.2" "GET" "/b" 404 5] None (new_analyzer 3)).
Proof.
  apply (success_size_within_total
           [mkRecord 1 "10.0.0.1" "GET" "/a" 200 7;
            mkRecord 2 "10.0.0.2" "GET" "/b" 404 5] None 3).
  repeat constructor; simpl; lia.
Defined.

(** ** The top lists *)

(** X11. [most_common n] picks entries of the counter, [n] of them or all
    when there are fewer, lists them by descending count, and leaves out
    only entries whose count is at most that of every entry listed. *)
Theorem most_common_largest {K : Type} `{EqDecision K} (n : Z) (c : list (K * Z)) :
  exists rest : list (K * Z),
    (Counter.most_common n c ++ rest)%list ≡ₚ c
    /\ length (Counter.most_common n c) = Nat.min (Z.to_nat n) (length c)
    /\ Sorted (fun y z : K * Z => z.2 <= y.2) (Counter.most_common n c)
    /\ forall x y, x ∈ Counter.most_common n c -> y ∈ rest -> y.2 <= x.2.
Proof.
  exists (drop (Z.to_nat n) (Counter.sorted_desc c)). unfold Counter.most_common.
  assert (Transitive (fun y z : K * Z => z.2 <= y.2)) as Htrans.
  { intros x y z ? ?. lia. }
  pose proof (Sorted_StronglySorted _ _ (sorted_desc_Sorted c)) as Hss.
  rewrite <- (take_drop (Z.to_nat n) (Counter.sorted_desc c)) in Hss.
  split_and!.
  - by rewrite take_drop, sorted_desc_Permutation.
  - by rewrite length_take, (Permutation_length (sorted_desc_Permutation c)).
  - apply StronglySorted_Sorted. by apply StronglySorted_app_1_l in Hss.
  - intros x y Hx Hy. by apply (StronglySorted_app_1_elem_of _ _ _ x y Hss).
Qed.

(** ** Filters and the report *)

Lemma count_if_true (rs : list record) : count_if (fun _ => true) rs = Z.of_nat (length rs).
Proof.
  induction rs as [|r rs IH]; [done|]. rewrite count_if_cons, IH. cbn [length]. lia.
Qed.

Lemma count_if_false (rs : list record) : count_if (fun _ => false) rs = 0.
Proof. induction rs as [|r rs IH]; [done|]. by rewrite count_if_cons, IH. Qed.

Lemma matching_matches (lines : list string) (a : args) (r : record) :
  r ∈ matching lines a -> matches_filters r a = true.
Proof. intros (line & _ & _ & H)%elem_of_matching. done. Qed.

Lemma single_key_counter {K : Type} `{EqDecision K} (c : list (K * Z)) (m : K) :
  counter_wf c -> (forall k, k <> m -> Counter.get k c = 0) ->
  c = [] \/ c = [(m, Counter.get m c)].
Proof.
  intros Hwf Hz. pose proof Hwf as [Hnd _].
  assert (forall k, k ∈ Counter.keys c -> k = m) as Hkeys.
  { intros k Hk. apply (counter_keys_get c k Hwf) in Hk.
    destruct (decide (k = m)); [done|]. by specialize (Hz k ltac:(done)). }
  destruct c as [|[k0 n0] c]; [by left|right].
  assert (k0 = m) as -> by (apply Hkeys; left).
  destruct c as [|[k1 n1] c].
  - cbn. by rewrite decide_True.
  - assert (k1 = m) as -> by (apply Hkeys; right; left).
    unfold Counter.keys in Hnd. cbn in Hnd.
    apply NoDup_cons in Hnd as [Hnin _]. exfalso. apply Hnin. left.
Qed.

(** X12. With a method filter in force, the analyzer returned by
    [process_file] has counted that method only: every request is counted
    under it, no other method has a count, and [method_counter] is empty or
    has one entry. *)
Theorem method_filter_single_method
    (lines : list string) (a : args) (cutoff : option Z) (m : string) :
  args_method a = Some m ->
  m <> "" ->
  exists s w,
    process_file lines a cutoff = Ok (s, w)
    /\ Counter.get m (method_counter s) = total_requests s
    /\ (forall k, k <> m -> Counter.get k (method_counter s) = 0)
    /\ (method_counter s = [] \/ method_counter s = [(m, total_requests s)]).
Proof.
  intros Hm Hne.
  destruct (process_file_matching lines a cutoff) as [w Hw].
  eexists _, w. split; [exact Hw|].
  set (rs := matching lines a).
  pose proof (aggregate_wf rs cutoff _ (new_analyzer_wf (args_top a))) as [_ _ Hwm _ _].
  destruct (aggregate_counts rs cutoff (new_analyzer (args_top a)))
    as (H1 & _ & _ & _ & _ & H6 & _).
  cbn [new_analyzer total_requests method_counter Counter.get] in *.
  assert (forall r, r ∈ rs -> method r = m) as Hall.
  { intros r Hr%matching_matches. unfold matches_filters in Hr. rewrite Hm in Hr.
    cbn in Hr. destruct (String.eqb_spec m ""); [done|]. cbn in Hr.
    destruct (String.eqb_spec (method r) m); [done|]. done. }
  assert (Counter.get m (method_counter (aggregate rs cutoff (new_analyzer (args_top a))))
          = total_requests (aggregate rs cutoff (new_analyzer (args_top a)))) as Hget.
  { rewrite H6, H1, <- count_if_true. f_equal. apply count_if_ext.
    intros r Hr. apply bool_decide_eq_true. by apply Hall. }
  assert (forall k, k <> m ->
            Counter.get k (method_counter (aggregate rs cutoff (new_analyzer (args_top a))))
            = 0) as Hz.
  { intros k Hk. rewrite H6, Z.add_0_l. etrans; [|apply (count_if_false rs)].
    apply count_if_ext.
    intros r Hr. apply bool_decide_eq_false. rewrite (Hall r Hr). congruence. }
  split_and!; [done|done|].
  rewrite <- Hget. by apply single_key_counter.
Qed.

Lemma method_filter_single_method_witness :
  exists s w,
    process_file ["1 10.0.0.1 GET /a 200 5"; "2 10.0.0.1 post /b 200 5"]
      (mkArgs (Some "POST") None None None 3) None = Ok (s, w)
    /\ Counter.get "POST" (method_counter s) = total_requests s.
Proof.
  destruct (method_filter_single_method
              ["1 10.0.0.1 GET /a 200 5"; "2 10.0.0.1 post /b 200 5"]
              (mkArgs (Some "POST") None None None 3) None "POST")
    as (s & w & H1 & H2 & _).
  - reflexivity.
  - discriminate.
  - by exists s, w.
Defined.

(** X13. With a status filter [low-high] that lies inside one status
    class, every request counted by [process_file] falls in that class: the
    counter of the class equals [total_requests] and the other two are
    zero. *)
Theorem status_filter_single_class
    (lines : list string) (a : args) (cutoff : option Z) (lo hi : Z) :
  args_status_filter a = Some (lo, hi) ->
  exists s w,
    process_file lines a cutoff = Ok (s, w)
    /\ (200 <= lo -> hi < 300 ->
        success_count s = total_requests s
        /\ client_error_count s = 0 /\ server_error_count s = 0)
    /\ (400 <= lo -> hi < 500 ->
        client_error_count s = total_requests s
        /\ success_count s = 0 /\ server_error_count s = 0)
    /\ (500 <= lo -> hi < 600 ->
        server_error_count s = total_requests s
        /\ success_count s = 0 /\ client_error_count s = 0).
Proof.
  intros Hsf.
  destruct (process_file_matching lines a cutoff) as [w Hw].
  eexists _, w. split; [exact Hw|].
  set (rs := matching lines a).
  destruct (aggregate_counts rs cutoff (new_analyzer (args_top a)))
    as (H1 & _ & _ & _ & _ & _ & H7 & _ & H9 & H10 & _).
  cbn [new_analyzer total_requests success_count client_error_count
       server_error_count] in *.
  rewrite H1, H7, H9, H10, !Z.add_0_l.
  assert (forall r, r ∈ rs -> lo <= status r <= hi) as Hall.
  { intros r Hr%matching_matches. unfold matches_filters in Hr. rewrite Hsf in Hr.
    destruct (Py.truthy_str (args_method a)
              && negb (String.eqb (method r) (default "" (args_method a)))); [done|].
    destruct (Z.leb_spec lo (status r)), (Z.leb_spec (status r) hi); cbn in Hr;
      done || lia. }
  rewrite <- (count_if_true rs).
  assert (forall p q : record -> bool,
            (forall r, lo <= status r <= hi -> p r = q r) ->
            count_if p rs = count_if q rs) as Hext.
  { intros p q H. apply count_if_ext. intros r Hr. by apply H, Hall. }
  split_and!; intros Hlo Hhi; split_and!;
    try (rewrite <- (count_if_false rs));
    apply Hext; intros r Hr; unfold is_2xx, is_4xx, is_5xx; lia.
Qed.

Lemma status_filter_single_class_witness :
  exists s w,
    process_file ["1 10.0.0.1 GET /a 200 5"; "2 10.0.0.1 GET /b 404 5"]
      (mkArgs None (Some (400, 499)) None None 3) None = Ok (s, w)
    /\ client_error_count s = total_requests s.
Proof.
  destruct (status_filter_single_class
              ["1 10.0.0.1 GET /a 200 5"; "2 10.0.0.1 GET /b 404 5"]
              (mkArgs None (Some (400, 499)) None None 3) None 400 499)
    as (s & w & H1 & _ & H2 & _).
  - reflexivity.
  - exists s, w. split; [exact H1|]. apply H2; lia.
Defined.

(** ** The whole run *)

(** X14. On a file whose report is within what the library renders
    ([report_renders], for the cutoff the first pass leads to), [main]
    returns with exit status 0. When no line parses and passes the filters
    it prints the report of a fresh analyzer with no cutoff and writes only
    the note to the error stream, with no warning for lines that do not
    parse, since the second pass is not run. Otherwise it prints the report
    of the aggregate of the matching records for the cutoff [m - 86400],
    [m] being the maximum found, and the error stream holds the warnings of
    the second pass. *)
Theorem main_outcome
    (format_pct format_avg : Z -> Z -> string) (format_hour : Z -> string)
    (a : args) (lines : list string) :
  args_printable a ->
  (forall m, find_max_timestamp lines a = Ok (Some m) ->
             report_renders a (matching lines a) (Some (m - 86400))) ->
  exists out : outcome,
    main format_pct format_avg format_hour a lines = Ok out
    /\ exit_status out = 0
    /\ ((matching lines a = []
         /\ stderr out = ["No valid records matched the filters."]
         /\ stdout out
            = generate_report format_pct format_avg format_hour
                (new_analyzer (args_top a)) a None)
        \/ (exists m,
              find_max_timestamp lines a = Ok (Some m)
              /\ matching lines a <> []
              /\ stderr out = warnings_from 1 lines
              /\ stdout out
                 = generate_report format_pct format_avg format_hour
                     (aggregate (matching lines a) (Some (m - 86400))
                        (new_analyzer (args_top a)))
                     a (Some (m - 86400)))).
Proof.
  intros _ _. unfold main.
  destruct (find_max_timestamp lines a) as [[m|]|e] eqn:Hmax.
  - cbn [bind]. unfold process_file. rewrite process_lines_warnings. cbn [bind app fst snd].
    eexists. split; [reflexivity|]. split; [done|]. right. exists m.
    split_and!; [done| |done..].
    intros Hnone. apply find_max_timestamp_None in Hnone. congruence.
  - cbn [bind]. eexists. split; [reflexivity|]. split; [done|]. left.
    by apply find_max_timestamp_None in Hmax.
  - unfold find_max_timestamp in Hmax. by rewrite find_max_from_matching in Hmax.
Qed.

Lemma main_outcome_witness :
  exists out : outcome,
    main (fun _ _ => "") (fun _ _ => "") (fun _ => "")
      (mkArgs None None None None 3)
      [ "1700000000 10.0.0.1 get /index.html 200 512"; "not a record";
        "1700003600 10.0.0.2 GET /about 404 128" ]
    = Ok out
    /\ exit_status out = 0
    /\ stderr out = ["Warning: invalid format at line 2"].
Proof.
  destruct (main_outcome (fun _ _ => "") (fun _ _ => "") (fun _ => "")
              (mkArgs None None None None 3)
              [ "1700000000 10.0.0.1 get /index.html 200 512"; "not a record";
                "1700003600 10.0.0.2 GET /about 404 128" ])
    as (out & Hout & Hexit & _).
  - vm_compute. repeat split; congruence.
  - intros m Hm. vm_compute in Hm. injection Hm as <-.
    vm_compute. repeat split; congruence.
  - exists out. split; [exact Hout|]. split; [exact Hexit|].
    vm_compute in Hout. injection Hout as <-. reflexivity.
Defined.

Lemma warnings_from_cons (n : Z) (line : string) (lines : list string) :
  warnings_from n (line :: lines)
  = (match parsed line with
     | None => ["Warning: invalid format at line " +:+ pretty n]
     | Some _ => []
     end ++ warnings_from (n + 1) lines)%list.
Proof.
  unfold warnings_from. rewrite imap_cons. cbn [omap list_omap fst snd].
  replace (Z.of_nat 0 + n) with n by lia.
  rewrite (imap_ext _ (fun i line0 => (Z.of_nat i + (n + 1), line0)) lines).
  - by destruct (parsed line).
  - intros i x _. cbn. f_equal. lia.
Qed.

(** X15. Every line of the file meets exactly one fate in [process_file]:
    it is counted in [total_requests], or it draws a warning, or it parses
    and is dropped by the filters without a word. So the three numbers add
    up to the number of lines. *)
Theorem every_line_accounted (lines : list string) (a : args) (cutoff : option Z) :
  exists s w,
    process_file lines a cutoff = Ok (s, w)
    /\ Z.of_nat (length lines)
       = total_requests s + Z.of_nat (length w)
         + Z.of_nat (length (filtered_out lines a)).
Proof.
  unfold process_file. rewrite process_lines_warnings. eexists _, _.
  split; [reflexivity|]. cbn [app].
  destruct (aggregate_counts (matching lines a) cutoff (new_analyzer (args_top a)))
    as (-> & _).
  cbn [new_analyzer total_requests]. generalize 1 as n.
  induction lines as [|line lines IH]; intros n; [done|].
  rewrite warnings_from_cons, length_app. specialize (IH (n + 1)).
  unfold matching, filtered_out in *. rewrite filter_cons. cbn [omap list_omap].
  destruct (parsed line) as [r|]; cbn [mbind option_bind].
  - destruct (matches_filters r a); cbn [negb].
    + rewrite decide_False by done. cbn [app length] in *. lia.
    + rewrite decide_True by done. cbn [app length] in *. lia.
  - rewrite decide_False by done. cbn [app length] in *. lia.
Qed.

Lemma matches_filters_time (r : record) (a : args) :
  matches_filters r a = true ->
  (forall s, args_start a = Some s -> s <> 0 -> s <= timestamp r)
  /\ (forall e, args_end a = Some e -> e <> 0 -> timestamp r <= e).
Proof.
  unfold matches_filters.
  destruct (Py.truthy_str (args_method a)
            && negb (String.eqb (method r) (default "" (args_method a)))); [done|].
  destruct (match args_status_filter a with
            | Some (low, high) => negb ((low <=? status r) && (status r <=? high))
            | None => false
            end); [done|].
  destruct (Py.truthy_int (args_start a) && (timestamp r <? default 0 (args_start a)))
    eqn:Hs; [done|].
  destruct (Py.truthy_int (args_end a) && (default 0 (args_end a) <? timestamp r))
    eqn:He; [done|].
  intros _. split.
  - intros s Hs0 Hne. rewrite Hs0 in Hs. cbn in Hs.
    destruct (Z.eqb_spec s 0); [done|]. cbn in Hs. lia.
  - intros e He0 Hne. rewrite He0 in He. cbn in He.
    destruct (Z.eqb_spec e 0); [done|]. cbn in He. lia.
Qed.

(** X16. A start or end bound other than zero holds for everything the run
    uses: the maximum timestamp found by the scan, hence the end of the
    recent window, lies at or after the start bound and at or before the
    end bound. *)
Theorem max_timestamp_within_bounds (lines : list string) (a : args) (m : Z) :
  find_max_timestamp lines a = Ok (Some m) ->
  (forall s, args_start a = Some s -> s <> 0 -> s <= m)
  /\ (forall e, args_end a = Some e -> e <> 0 -> m <= e).
Proof.
  intros (_ & r & Hr & <-)%find_max_timestamp_Some.
  by apply matches_filters_time, (matching_matches lines).
Qed.

Lemma max_timestamp_within_bounds_witness :
  find_max_timestamp ["10 10.0.0.1 GET /a 200 5"; "30 10.0.0.1 GET /b 200 5"]
    (mkArgs None None (Some 5) (Some 20) 3) = Ok (Some 10)
  /\ 5 <= 10 /\ 10 <= 20.
Proof.
  assert (find_max_timestamp ["10 10.0.0.1 GET /a 200 5"; "30 10.0.0.1 GET /b 200 5"]
            (mkArgs None None (Some 5) (Some 20) 3) = Ok (Some 10)) as Hmax
    by (vm_compute; reflexivity).
  split; [exact Hmax|].
  destruct (max_timestamp_within_bounds _ _ _ Hmax) as [Hs He].
  split; [apply (Hs 5); [reflexivity|lia]|apply (He 20); [reflexivity|lia]].
Defined.

(** ** The sections of the report *)

Lemma placeholder_or_lines {A : Type} (l : list A) (f : A -> string) :
  length (match l with
          | [] => ["(no data)"]
          | _ :: _ => f <$> l
          end) = Nat.max 1 (length l).
Proof. destruct l as [|x l]; [done|]. rewrite length_fmap. cbn [length]. lia. Qed.

(** X17. In a report that is printed ([report_renders]), the top-address
    section has as many lines as [ip_counter] has entries, but at most
    [--top] and at least the one placeholder line; the top-URL section
    likewise with at most five; the distribution section has one line per
    method, or the placeholder when there is no request; and the hourly
    list has 24 entries. *)
Theorem report_section_sizes
    (format_pct : Z -> Z -> string) (format_hour : Z -> string)
    (a : args) (rs : list record) (cutoff : Z) :
  report_renders a rs (Some cutoff) ->
  let s := aggregate rs (Some cutoff) (new_analyzer (args_top a)) in
  length (distribution_lines format_pct s)
  = (if total_requests s =? 0 then 1%nat else length (method_counter s))
  /\ length (top_ip_lines s a)
     = Nat.max 1 (Nat.min (Z.to_nat (args_top a)) (length (ip_counter s)))
  /\ length (top_url_lines s) = Nat.max 1 (Nat.min 5 (length (url_counter s)))
  /\ length (hour_data format_hour s cutoff) = 24%nat.
Proof.
  intros _. cbv zeta.
  set (s := aggregate rs (Some cutoff) (new_analyzer (args_top a))).
  split_and!.
  - unfold distribution_lines. destruct (total_requests s =? 0); [done|].
    by rewrite length_fmap, (Permutation_length (sorted_desc_Permutation _)).
  - unfold top_ip_lines.
    assert (length (Counter.most_common (args_top a) (ip_counter s))
            = Nat.min (Z.to_nat (args_top a)) (length (ip_counter s))) as <-.
    { unfold Counter.most_common.
      by rewrite length_take, (Permutation_length (sorted_desc_Permutation _)). }
    destruct (Counter.most_common (args_top a) (ip_counter s)) as [|x l]; [done|].
    unfold enumerate1. rewrite length_fmap, length_imap. cbn [length]. lia.
  - unfold top_url_lines.
    assert (length (Counter.most_common 5 (url_counter s))
            = Nat.min 5 (length (url_counter s))) as <-.
    { unfold Counter.most_common.
      by rewrite length_take, (Permutation_length (sorted_desc_Permutation _)). }
    destruct (Counter.most_common 5 (url_counter s)) as [|x l]; [done|].
    unfold enumerate1. rewrite length_fmap, length_imap. cbn [length]. lia.
  - unfold hour_data. by rewrite length_fmap, length_seq.
Qed.

Lemma report_section_sizes_witness :
  let a := mkArgs None None None None 2 in
  let s := aggregate tied_records (Some 0) (new_analyzer 2) in
  length (distribution_lines (fun _ _ => "") s) = 3%nat
  /\ length (top_ip_lines s a) = 2%nat
  /\ length (top_url_lines s) = 5%nat
  /\ length (hour_data (fun _ => "") s 0) = 24%nat.
Proof.
  cbv zeta.
  destruct (report_section_sizes (fun _ _ => "") (fun _ => "")
              (mkArgs None None None None 2) tied_records 0)
    as (H1 & H2 & H3 & H4).
  - vm_compute. repeat split; congruence.
  - split_and!.
    + etrans; [exact H1|]. vm_compute. reflexivity.
    + etrans; [exact H2|]. vm_compute. reflexivity.
    + etrans; [exact H3|]. vm_compute. reflexivity.
    + exact H4.
Defined.

(** ** Small byte counts *)

(** X18. A byte count below 1024, negative ones down to [- 2 ^ 53]
    included (the integers the conversion to binary floating point keeps
    as they are), is printed as it is, followed by [.00 B]. *)
Theorem human_readable_bytes_below_1024 (num : Z) :
  - 2 ^ 53 <= num < 1024 -> human_readable_bytes num = pretty num +:+ ".00 B".
Proof.
  intros [_ Hlt]. unfold human_readable_bytes, units. cbn [human_readable_loop].
  destruct (Z.ltb_spec num (1024 * 1)); [|lia]. cbn [orb].
  assert (format_2f num 1 = pretty num +:+ ".00") as ->.
  { unfold format_2f, round_half_even.
    rewrite Z.mod_1_r, Z.div_1_r. cbn [Z.ltb Z.mul Z.compare].
    change (2 * 0 <? 1) with true. cbv iota.
    rewrite Z.abs_mul. change (Z.abs 100) with 100.
    rewrite Z.mul_comm, Z.div_mul, Z.mod_mul by done.
    change (two_digits 0) with "00".
    destruct num as [|p|p]; [reflexivity|reflexivity|].
    change (Z.neg p <? 0) with true. cbv iota.
    change (Z.abs (Z.neg p)) with (Z.pos p). reflexivity. }
  clear. induction (pretty num) as [|ch str IH]; [reflexivity|].
  change (String ch ((str +:+ ".00") +:+ " " +:+ "B") = String ch (str +:+ ".00 B")).
  by rewrite IH.
Qed.

Lemma human_readable_bytes_below_1024_witness :
  human_readable_bytes (-2048) = "-2048.00 B".
Proof. apply (human_readable_bytes_below_1024 (-2048)). vm_compute. split; congruence. Defined.

(** ** Whitespace around a line *)

Lemma string_app_assoc (s1 s2 s3 : string) : (s1 +:+ s2) +:+ s3 = s1 +:+ (s2 +:+ s3).
Proof.
  induction s1 as [|c s1 IH]; [done|].
  change (String c ((s1 +:+ s2) +:+ s3) = String c (s1 +:+ (s2 +:+ s3))). by rewrite IH.
Qed.

Lemma string_app_nil_r (s : string) : s +:+ "" = s.
Proof.
  induction s as [|c s IH]; [done|]. change (String c (s +:+ "") = String c s). by rewrite IH.
Qed.

Lemma rev_app_app (s1 s2 acc : string) :
  String.rev_app (s1 +:+ s2) acc = String.rev_app s2 (String.rev_app s1 acc).
Proof.
  revert acc. induction s1 as [|c s1 IH]; intros acc; [done|].
  change (String.rev_app (s1 +:+ s2) (String c acc)
          = String.rev_app s2 (String.rev_app s1 (String c acc))). apply IH.
Qed.

Lemma rev_app_acc (s acc : string) :
  String.rev_app s acc = String.rev_app s "" +:+ acc.
Proof.
  revert acc. induction s as [|c s IH]; intros acc; [done|].
  cbn [String.rev_app]. rewrite (IH (String c acc)), (IH (String c "")).
  by rewrite string_app_assoc.
Qed.

Lemma rev_app_rev_app (s a b : string) :
  String.rev_app (String.rev_app s a) b = String.rev_app a (s +:+ b).
Proof.
  revert a b. induction s as [|c s IH]; intros a b; [done|].
  cbn [String.rev_app]. by rewrite IH.
Qed.

Lemma only_whitespace_rev_app (w acc : string) :
  only_whitespace (String.rev_app w acc) = only_whitespace w && only_whitespace acc.
Proof.
  revert acc. induction w as [|c w IH]; intros acc; [done|].
  cbn [String.rev_app only_whitespace]. rewrite IH. cbn [only_whitespace].
  destruct (Py.isspace c), (only_whitespace w); done.
Qed.

Lemma lstrip_decompose (t : string) :
  exists w, only_whitespace w = true /\ t = w +:+ Py.lstrip t.
Proof.
  induction t as [|c t (w & Hw & IH)]; [by exists ""|].
  cbn [Py.lstrip]. destruct (Py.isspace c) eqn:Hc.
  - exists (String c w). split; [cbn; by rewrite Hc, Hw|].
    change (String c t = String c (w +:+ Py.lstrip t)). by rewrite <- IH.
  - by exists "".
Qed.

Lemma rstrip_decompose (s : string) :
  exists w, only_whitespace w = true /\ s = Py.rstrip s +:+ w.
Proof.
  destruct (lstrip_decompose (String.rev s)) as (w & Hw & Hrev).
  exists (String.rev w). split.
  - unfold String.rev. by rewrite only_whitespace_rev_app, Hw.
  - unfold Py.rstrip.
    assert (s = String.rev (String.rev s)) as Hinv.
    { unfold String.rev. rewrite rev_app_rev_app. cbn [String.rev_app].
      by rewrite string_app_nil_r. }
    rewrite Hinv at 1. rewrite Hrev at 1.
    unfold String.rev at 1. rewrite rev_app_app. apply rev_app_acc.
Qed.

Lemma split_from_trailing (s w : string) (tok : option string) :
  only_whitespace w = true ->
  Py.split_from (s +:+ w) tok = Py.split_from s tok.
Proof.
  intros Hw. revert tok. induction s as [|c s IH]; intros tok.
  - change ("" +:+ w) with w. revert tok.
    induction w as [|c w IHw]; intros tok; [done|].
    cbn [only_whitespace] in Hw. apply andb_true_iff in Hw as [Hc Hw].
    cbn [Py.split_from]. rewrite Hc.
    destruct tok; rewrite (IHw Hw); done.
  - change (String c s +:+ w) with (String c (s +:+ w)).
    cbn [Py.split_from]. destruct (Py.isspace c); [destruct tok|]; by rewrite IH.
Qed.

Lemma split_leading (w s : string) :
  only_whitespace w = true -> Py.split (w +:+ s) = Py.split s.
Proof.
  unfold Py.split. induction w as [|c w IH]; intros Hw; [done|].
  cbn [only_whitespace] in Hw. apply andb_true_iff in Hw as [Hc Hw].
  change (String c w +:+ s) with (String c (w +:+ s)).
  cbn [Py.split_from]. rewrite Hc. by apply IH.
Qed.

Lemma parts_of_split (s : string) : parts_of s = Py.split s.
Proof.
  unfold parts_of, Py.strip.
  destruct (rstrip_decompose (Py.lstrip s)) as (w & Hw & Hr).
  destruct (lstrip_decompose s) as (w' & Hw' & Hl).
  rewrite Hl at 2. rewrite (split_leading w' _ Hw').
  rewrite Hr at 2. unfold Py.split. by rewrite split_from_trailing.
Qed.

(** X19. The [strip] in front of [split] changes nothing, and whitespace
    before or after a line, such as the newline that ends it in the file,
    does not change what [parse_log_line] returns. *)
Theorem parse_log_line_ignores_whitespace (w1 line w2 : string) :
  only_whitespace w1 = true ->
  only_whitespace w2 = true ->
  parts_of line = Py.split line
  /\ parse_log_line (w1 +:+ line +:+ w2) = parse_log_line line.
Proof.
  intros H1 H2. split; [apply parts_of_split|].
  unfold parse_log_line. rewrite !parts_of_split.
  rewrite (split_leading w1 _ H1). unfold Py.split.
  by rewrite (split_from_trailing line w2 None H2).
Qed.

Lemma parse_log_line_ignores_whitespace_witness :
  parse_log_line ("  " +:+ "1000 10.0.0.1 GET /a 200 500" +:+ nl)
  = parse_log_line "1000 10.0.0.1 GET /a 200 500".
Proof.
  destruct (parse_log_line_ignores_whitespace "  " "1000 10.0.0.1 GET /a 200 500" nl)
    as [_ H].
  - reflexivity.
  - reflexivity.
  - exact H.
Defined.

(** ** The range form of [--status] *)

Lemma split_once_at (c : ascii) (l h : string) :
  Py.contains c l = false ->
  Py.split_once c (l +:+ String c h) = [l; h].
Proof.
  induction l as [|c' l IH]; intros Hl.
  - change ("" +:+ String c h) with (String c h). cbn [Py.split_once].
    by rewrite Ascii.eqb_refl.
  - cbn [Py.contains] in Hl. apply orb_false_iff in Hl as [Hc Hl].
    change (String c' l +:+ String c h) with (String c' (l +:+ String c h)).
    cbn [Py.split_once]. rewrite Hc, (IH Hl). done.
Qed.

(** X20. A status of the form [low-high], where [low] holds no minus sign
    and both parts are integers for [int], gives the filter [(low, high)]
    when [low <= high], and the range error otherwise. *)
Theorem status_range_form (l h : string) (lo hi : Z) :
  Py.contains "-"%char l = false ->
  Py.int l = Ok lo ->
  Py.int h = Ok hi ->
  status_filter_of (Some (l +:+ "-" +:+ h))
  = if hi <? lo then inl "Error: invalid --status range (use 400-499)"
    else inr (Some (lo, hi)).
Proof.
  intros Hl Hlo Hhi. unfold status_filter_of.
  assert (Py.truthy_str (Some (l +:+ "-" +:+ h)) = true) as ->.
  { destruct l; reflexivity. }
  cbn [from_option id].
  assert (Py.contains "-"%char (l +:+ "-" +:+ h) = true) as ->.
  { rewrite contains_app. cbn. apply orb_true_r. }
  unfold parse_status_range.
  change (l +:+ "-" +:+ h) with (l +:+ String "-"%char h).
  rewrite (split_once_at _ _ _ Hl). cbn [Py.unpack2 bind fst snd].
  rewrite Hlo, Hhi. cbn [bind]. by destruct (hi <? lo).
Qed.

Lemma status_range_form_witness :
  status_filter_of (Some ("400" +:+ "-" +:+ "499")) = inr (Some (400, 499)).
Proof.
  apply (status_range_form "400" "499" 400 499); reflexivity.
Defined.

(** ** The window derived by [main] *)

(** X21. In a run of [main] whose derived cutoff [m - 86400] is not zero,
    [recent_ip_counts] counts every matching record from the cutoff on,
    while [requests_per_hour] counts those of them that are older than the
    maximum [m]; so the histogram holds fewer requests than
    [recent_ip_counts], and at least one address is recent. *)
Theorem derived_window_totals (lines : list string) (a : args) (m : Z) :
  find_max_timestamp lines a = Ok (Some m) ->
  m - 86400 <> 0 ->
  let s := aggregate (matching lines a) (Some (m - 86400)) (new_analyzer (args_top a)) in
  Counter.total (recent_ip_counts s)
  = count_if (fun r => m - 86400 <=? timestamp r) (matching lines a)
  /\ Counter.total (requests_per_hour s)
     = count_if (fun r => (m - 86400 <=? timestamp r) && (timestamp r <? m))
         (matching lines a)
  /\ Counter.total (requests_per_hour s) < Counter.total (recent_ip_counts s)
  /\ (1 <= length (recent_ip_counts s))%nat.
Proof.
  intros Hmax Hc. cbv zeta.
  apply find_max_timestamp_Some in Hmax as (Hall & rmax & Hrmax & Hts).
  set (rs := matching lines a) in *.
  destruct (aggregate_totals rs (Some (m - 86400)) (new_analyzer (args_top a)))
    as (_ & _ & T3 & T4).
  destruct (aggregate_counts rs (Some (m - 86400)) (new_analyzer (args_top a)))
    as (_ & _ & _ & _ & _ & _ & _ & _ & _ & _ & H11 & _).
  cbn [new_analyzer recent_ip_counts requests_per_hour Counter.get] in *.
  change (Counter.total []) with 0 in *.
  assert (forall r, in_recent_window r (Some (m - 86400)) = (m - 86400 <=? timestamp r))
    as Hw.
  { intros r. unfold in_recent_window. cbn. by destruct (Z.eqb_spec (m - 86400) 0). }
  assert (count_if (fun r => in_recent_window r (Some (m - 86400))) rs
          = count_if (fun r => m - 86400 <=? timestamp r) rs) as E3.
  { apply count_if_ext. intros r _. apply Hw. }
  assert (count_if (in_hour_bucket (Some (m - 86400))) rs
          = count_if (fun r => (m - 86400 <=? timestamp r) && (timestamp r <? m)) rs) as E4.
  { apply count_if_ext. intros r Hr. unfold in_hour_bucket. rewrite Hw.
    cbn [from_option id]. specialize (Hall r Hr).
    destruct (Z.leb_spec (m - 86400) (timestamp r)) as [Hge|]; [|done]. cbn [andb].
    destruct (hour_index_bounds r (m - 86400)) as ([Hb1 Hb2] & Hiff); [lia..|].
    destruct (Z.leb_spec 0 (hour_index r (m - 86400))); [|lia]. cbn [andb].
    destruct (Z.ltb_spec (hour_index r (m - 86400)) 24) as [Hlt|Hge24],
      (Z.ltb_spec (timestamp r) m); try done.
    - exfalso. apply Hiff in Hlt. lia.
    - exfalso. assert (hour_index r (m - 86400) < 24) by (apply Hiff; lia). lia. }
  rewrite T3, T4, E3, E4, !Z.add_0_l.
  assert (count_if (fun r => (m - 86400 <=? timestamp r) && (timestamp r <? m)) rs
          < count_if (fun r => m - 86400 <=? timestamp r) rs) as Hlt.
  { clear -Hrmax Hts. induction rs as [|r rs IH]; [by apply elem_of_nil in Hrmax|].
    rewrite !count_if_cons.
    assert (count_if (fun r => (m - 86400 <=? timestamp r) && (timestamp r <? m)) rs
            <= count_if (fun r => m - 86400 <=? timestamp r) rs) as Hle.
    { apply count_if_le. intros r0 _ [H _]%andb_true_iff. done. }
    apply elem_of_cons in Hrmax as [<-|Hin].
    - rewrite Hts.
      destruct (Z.leb_spec (m - 86400) m); [|lia].
      destruct (Z.ltb_spec m m); [lia|]. cbn [andb]. lia.
    - specialize (IH Hin).
      destruct (m - 86400 <=? timestamp r), (timestamp r <? m); cbn [andb]; lia. }
  split_and!; [done|done|done|].
  assert (Counter.get (ip rmax)
            (recent_ip_counts (aggregate rs (Some (m - 86400)) (new_analyzer (args_top a))))
          <> 0) as Hnz.
  { rewrite H11, Z.add_0_l. apply count_if_pos. exists rmax. split; [done|].
    rewrite Hw, Hts. destruct (Z.leb_spec (m - 86400) m); [|lia].
    cbn [andb]. by apply bool_decide_eq_true. }
  apply get_nonzero_elem_of in Hnz.
  destruct (recent_ip_counts _) as [|x l]; [by apply elem_of_nil in Hnz|].
  cbn [length]. lia.
Qed.

Lemma derived_window_totals_witness :
  let s := aggregate (matching ["1000 10.0.0.1 GET /a 200 500"]
                        (mkArgs None None None None 3))
             (Some (1000 - 86400)) (new_analyzer 3) in
  Counter.total (requests_per_hour s) < Counter.total (recent_ip_counts s).
Proof.
  cbv zeta.
  destruct (derived_window_totals ["1000 10.0.0.1 GET /a 200 500"]
              (mkArgs None None None None 3) 1000) as (_ & _ & H & _).
  - vm_compute. reflexivity.
  - lia.
  - exact H.
Defined.

(** ** Lines written in the documented format *)

Lemma pretty_N_char_cases (d : N) (P : ascii -> Prop) :
  (d < 10)%N ->
  P "0"%char -> P "1"%char -> P "2"%char -> P "3"%char -> P "4"%char ->
  P "5"%char -> P "6"%char -> P "7"%char -> P "8"%char -> P "9"%char ->
  P (pretty_N_char d).
Proof.
  intros Hd. intros.
  assert (d = 0 \/ d = 1 \/ d = 2 \/ d = 3 \/ d = 4 \/ d = 5 \/ d = 6 \/ d = 7
          \/ d = 8 \/ d = 9)%N as Hc by lia.
  repeat (destruct Hc as [->|Hc]; [assumption|]). by subst.
Qed.

Lemma digit_value_pretty_N_char (d : N) :
  (d < 10)%N -> Py.digit_value (pretty_N_char d) = Some (Z.of_N d).
Proof.
  intros Hd.
  assert (d = 0 \/ d = 1 \/ d = 2 \/ d = 3 \/ d = 4 \/ d = 5 \/ d = 6 \/ d = 7
          \/ d = 8 \/ d = 9)%N as Hc by lia.
  repeat (destruct Hc as [->|Hc]; [reflexivity|]). by subst.
Qed.

(** The decimal rendering of a positive number, read back digit by digit:
    [k] is its number of digits. *)
Lemma pretty_N_go_digits (x : N) :
  (0 < x)%N ->
  exists k : Z,
    1 <= k /\ 10 ^ (k - 1) <= Z.of_N x
    /\ forall s,
         (forall acc b, Py.int_digits (pretty_N_go x s) acc b
                        = Py.int_digits s (acc * 10 ^ k + Z.of_N x) true)
         /\ Py.digit_count (pretty_N_go x s) = k + Py.digit_count s
         /\ (exists d rest, (d < 10)%N /\ pretty_N_go x s = String (pretty_N_char d) rest)
         /\ (forall c, Py.contains c (pretty_N_go x s) = true ->
                       Py.contains c s = true \/ exists d, (d < 10)%N /\ c = pretty_N_char d).
Proof.
  induction (N.lt_wf_0 x) as [x _ IH]. intros Hx.
  assert (x `mod` 10 < 10)%N as Hr by (apply N.mod_lt; lia).
  pose proof (N.div_mod x 10 ltac:(lia)) as Hdm.
  destruct (decide (x `div` 10 = 0)%N) as [Hq|Hq].
  - exists 1. split_and!; [lia|change (10 ^ (1 - 1)) with 1; lia|]. intros s.
    rewrite pretty_N_go_step, Hq, pretty_N_go_0 by done. split_and!.
    + intros acc b. cbn [Py.int_digits]. rewrite digit_value_pretty_N_char by done.
      f_equal. change (10 ^ 1) with 10. lia.
    + cbn [Py.digit_count]. by rewrite digit_value_pretty_N_char.
    + by exists (x `mod` 10)%N, s.
    + intros c. cbn [Py.contains]. intros [Hc|Hc]%orb_true_iff; [|by left].
      right. exists (x `mod` 10)%N. split; [done|]. symmetry. by apply Ascii.eqb_eq.
  - destruct (IH (x `div` 10)%N) as (k & Hk1 & Hk2 & Hs).
    { apply N.div_lt; lia. }
    { lia. }
    exists (k + 1). replace (k + 1 - 1) with (Z.succ (k - 1)) by lia.
    rewrite Z.pow_succ_r by lia.
    assert (Z.of_N x = 10 * Z.of_N (x `div` 10) + Z.of_N (x `mod` 10)) as HdmZ.
    { rewrite Hdm at 1. rewrite N2Z.inj_add, N2Z.inj_mul. done. }
    split_and!; [lia| |].
    { rewrite HdmZ. trans (10 * Z.of_N (x `div` 10)).
      - by apply Z.mul_le_mono_nonneg_l.
      - pose proof (N2Z.is_nonneg (x `mod` 10)) as Hnn. revert Hnn.
        generalize (Z.of_N (x `mod` 10)) (Z.of_N (x `div` 10)). intros; lia. }
    intros s. rewrite pretty_N_go_step by done.
    destruct (Hs (String (pretty_N_char (x `mod` 10)) s)) as (H1 & H2 & H3 & H4).
    split_and!.
    + intros acc b. rewrite H1. cbn [Py.int_digits].
      rewrite digit_value_pretty_N_char by done. f_equal.
      rewrite Z.pow_add_r, Z.pow_1_r by lia. rewrite HdmZ. ring.
    + rewrite H2. cbn [Py.digit_count]. rewrite digit_value_pretty_N_char by done. lia.
    + exact H3.
    + intros c Hc. apply H4 in Hc as [Hc|Hc]; [|by right].
      cbn [Py.contains] in Hc. apply orb_true_iff in Hc as [Hc|Hc]; [|by left].
      right. exists (x `mod` 10)%N. split; [done|]. symmetry. by apply Ascii.eqb_eq.
Qed.

Lemma int_unsigned_pretty_N_go (x : N) :
  (0 < x)%N -> Z.of_N x < 10 ^ Py.int_max_str_digits ->
  Py.int_unsigned (pretty_N_go x "") = Ok (Z.of_N x).
Proof.
  intros Hx Hlim. destruct (pretty_N_go_digits x Hx) as (k & Hk1 & Hk2 & Hs).
  destruct (Hs "") as (H1 & H2 & _). unfold Py.int_unsigned.
  rewrite H1, H2. cbn [Py.int_digits Py.digit_count].
  destruct (Z.ltb_spec Py.int_max_str_digits (k + 0)) as [Hbig|_]; [|f_equal; lia].
  exfalso.
  assert (10 ^ Py.int_max_str_digits <= 10 ^ (k - 1)) as Hle
    by (apply Z.pow_le_mono_r; lia).
  revert Hlim Hk2 Hle.
  generalize (10 ^ Py.int_max_str_digits) (10 ^ (k - 1)) (Z.of_N x). intros; lia.
Qed.

(** [int] reads back the decimal rendering of every integer within the
    digit limit. *)
Lemma int_pretty (n : Z) :
  Z.abs n < 10 ^ Py.int_max_str_digits -> Py.int (pretty n) = Ok n.
Proof.
  intros Hlim. destruct n as [|p|p].
  - reflexivity.
  - change (pretty (Z.pos p)) with (pretty_N_go (N.pos p) "").
    destruct (pretty_N_go_digits (N.pos p) ltac:(lia)) as (k & _ & _ & Hs).
    destruct (Hs "") as (_ & _ & (d & rest & Hd & Heq) & _).
    pose proof (int_unsigned_pretty_N_go (N.pos p) ltac:(lia) ltac:(lia)) as Hu.
    rewrite Heq in *. unfold Py.int. revert Hu.
    apply (pretty_N_char_cases d
             (fun c => Py.int_unsigned (String c rest) = Ok (Z.of_N (N.pos p)) ->
                       match Py.lstrip_int (String c rest) with
                       | String c0 d0 =>
                           if Ascii.eqb c0 "+"%char then Py.int_unsigned d0
                           else if Ascii.eqb c0 "-"%char
                                then n <-- Py.int_unsigned d0 ;; Ok (- n)
                                else Py.int_unsigned (String c0 d0)
                       | EmptyString => Raise ValueError
                       end = Ok (Z.pos p))); [done|..]; intros Hu; exact Hu.
  - change (pretty (Z.neg p)) with ("-" +:+ pretty_N_go (N.pos p) "").
    pose proof (int_unsigned_pretty_N_go (N.pos p) ltac:(lia) ltac:(lia)) as Hu.
    unfold Py.int.
    change (Py.lstrip_int ("-" +:+ pretty_N_go (N.pos p) ""))
      with (String "-"%char (pretty_N_go (N.pos p) "")).
    cbn [Ascii.eqb]. change (Ascii.eqb "-"%char "+"%char) with false.
    change (Ascii.eqb "-"%char "-"%char) with true. cbv iota.
    by rewrite Hu.
Qed.

Lemma pretty_N_go_token (x : N) : (0 < x)%N -> token (pretty_N_go x "").
Proof.
  intros Hx. destruct (pretty_N_go_digits x Hx) as (k & _ & _ & Hs).
  destruct (Hs "") as (_ & _ & (d & rest & _ & Heq) & Hc). split.
  - by rewrite Heq.
  - intros c [Hin|(d' & Hd' & ->)]%Hc; [done|].
    by apply (pretty_N_char_cases d' (fun c => Py.isspace c = false)).
Qed.

Lemma pretty_Z_token (n : Z) : token (pretty n).
Proof.
  destruct n as [|p|p].
  - change (pretty 0) with "0". split; [done|]. intros c. cbn [Py.contains].
    rewrite orb_false_r. by intros <-%Ascii.eqb_eq.
  - change (pretty (Z.pos p)) with (pretty_N_go (N.pos p) ""). apply pretty_N_go_token. lia.
  - change (pretty (Z.neg p)) with ("-" +:+ pretty_N_go (N.pos p) "").
    destruct (pretty_N_go_token (N.pos p) ltac:(lia)) as [_ Hsp]. split; [done|].
    intros c. change ("-" +:+ pretty_N_go (N.pos p) "")
      with (String "-"%char (pretty_N_go (N.pos p) "")).
    cbn [Py.contains]. intros [<-%Ascii.eqb_eq|H]%orb_true_iff; [done|by apply Hsp].
Qed.

Lemma split_from_word (t s u : string) :
  (forall c, Py.contains c t = true -> Py.isspace c = false) ->
  Py.split_from (t +:+ s) (Some u) = Py.split_from s (Some (u +:+ t)).
Proof.
  revert u. induction t as [|c t IH]; intros u Hsp.
  - change ("" +:+ s) with s. by rewrite string_app_nil_r.
  - change (String c t +:+ s) with (String c (t +:+ s)). cbn [Py.split_from].
    rewrite (Hsp c) by (cbn; by rewrite Ascii.eqb_refl).
    rewrite IH.
    + cbn [default from_option id]. do 2 f_equal.
      rewrite string_app_assoc. done.
    + intros c' Hc'. apply Hsp. cbn [Py.contains]. rewrite Hc'. apply orb_true_r.
Qed.

Lemma split_from_token (t s : string) :
  token t -> Py.split_from (t +:+ s) None = Py.split_from s (Some t).
Proof.
  intros [Hne Hsp]. destruct t as [|c t]; [done|].
  change (String c t +:+ s) with (String c (t +:+ s)). cbn [Py.split_from].
  rewrite (Hsp c) by (cbn; by rewrite Ascii.eqb_refl).
  cbn [default from_option id]. change ("" +:+ String c "") with (String c "").
  rewrite split_from_word; [done|].
  intros c' Hc'. apply Hsp. cbn [Py.contains]. rewrite Hc'. apply orb_true_r.
Qed.

(** Splitting the tokens joined by single spaces gives the tokens back. *)
Lemma split_join (ts : list string) :
  Forall token ts -> Py.split (String.concat " " ts) = ts.
Proof.
  unfold Py.split. induction 1 as [|t ts Ht Hts IH]; [done|].
  destruct ts as [|t' ts].
  - cbn [String.concat]. rewrite <- (string_app_nil_r t) at 1.
    by rewrite split_from_token.
  - change (String.concat " " (t :: t' :: ts))
      with (t +:+ " " +:+ String.concat " " (t' :: ts)).
    rewrite split_from_token by done.
    change (" " +:+ String.concat " " (t' :: ts))
      with (String " "%char (String.concat " " (t' :: ts))).
    cbn [Py.split_from]. change (Py.isspace " ") with true. cbv iota.
    by rewrite IH.
Qed.

Lemma digit_value_numeric_char (c : ascii) (d : Z) :
  Py.digit_value c = Some d -> numeric_char c = true.
Proof.
  destruct c as [[] [] [] [] [] [] [] []]; vm_compute; congruence.
Qed.

Lemma isspace_int_isspace (c : ascii) :
  Py.isspace_int c = true -> Py.isspace c = true.
Proof.
  destruct c as [[] [] [] [] [] [] [] []]; vm_compute; congruence.
Qed.

Lemma only_isspace_int_contains (s : string) (c : ascii) :
  Py.only_isspace_int s = true -> Py.contains c s = true -> Py.isspace_int c = true.
Proof.
  induction s as [|a s IH]; cbn [Py.only_isspace_int Py.contains]; [done|].
  intros [Ha Hs]%andb_true_iff [<-%Ascii.eqb_eq|Hc]%orb_true_iff; [done|by apply IH].
Qed.

Lemma int_digits_chars (s : string) (acc : Z) (b : bool) (n : Z) :
  Py.int_digits s acc b = Some n ->
  forall c, Py.contains c s = true -> numeric_char c = true \/ Py.isspace_int c = true.
Proof.
  revert acc b. induction s as [|a s IH]; intros acc b H c Hc; [done|].
  cbn [Py.int_digits] in H.
  destruct (Py.digit_value a) as [d|] eqn:Hd.
  - cbn [Py.contains] in Hc. apply orb_true_iff in Hc as [<-%Ascii.eqb_eq|Hc].
    + left. by eapply digit_value_numeric_char.
    + by eapply IH.
  - destruct (Ascii.eqb a "_"%char && b) eqn:Hu.
    + apply andb_true_iff in Hu as [->%Ascii.eqb_eq _].
      cbn [Py.contains] in Hc. apply orb_true_iff in Hc as [<-%Ascii.eqb_eq|Hc].
      * by left.
      * by eapply IH.
    + destruct (b && Py.only_isspace_int (String a s)) eqn:Hw; [|done].
      apply andb_true_iff in Hw as [_ Hw]. right.
      by apply (only_isspace_int_contains (String a s)).
Qed.

Lemma int_unsigned_chars (d : string) (n : Z) :
  Py.int_unsigned d = Ok n ->
  forall c, Py.contains c d = true -> numeric_char c = true \/ Py.isspace_int c = true.
Proof.
  unfold Py.int_unsigned. destruct (Py.int_digits d 0 false) as [m|] eqn:Hd; [|done].
  intros _. by eapply int_digits_chars.
Qed.

Lemma contains_lstrip_int_inv (c : ascii) (s : string) :
  Py.contains c s = true ->
  Py.isspace_int c = true \/ Py.contains c (Py.lstrip_int s) = true.
Proof.
  induction s as [|a s IH]; cbn [Py.contains Py.lstrip_int]; [done|].
  destruct (Py.isspace_int a) eqn:Ha.
  - intros [<-%Ascii.eqb_eq|Hc]%orb_true_iff; [by left|by apply IH].
  - intros Hc. right. exact Hc.
Qed.

(** Whatever [int] accepts is made of digits, signs, underscores and the
    whitespace it skips. *)
Lemma int_chars (s : string) (n : Z) :
  Py.int s = Ok n ->
  forall c, Py.contains c s = true -> numeric_char c = true \/ Py.isspace_int c = true.
Proof.
  unfold Py.int. intros H c Hc.
  apply contains_lstrip_int_inv in Hc as [Hc|Hc]; [by right|].
  destruct (Py.lstrip_int s) as [|c0 d]; [done|].
  destruct (Ascii.eqb c0 "+"%char) eqn:Hplus.
  { apply Ascii.eqb_eq in Hplus as ->. cbn [Py.contains] in Hc.
    apply orb_true_iff in Hc as [<-%Ascii.eqb_eq|Hc]; [by left|].
    by eapply int_unsigned_chars. }
  destruct (Ascii.eqb c0 "-"%char) eqn:Hminus.
  { apply Ascii.eqb_eq in Hminus as ->. cbn [Py.contains] in Hc.
    apply orb_true_iff in Hc as [<-%Ascii.eqb_eq|Hc]; [by left|].
    destruct (Py.int_unsigned d) as [m|] eqn:Hd; [|done].
    by eapply int_unsigned_chars. }
  by eapply int_unsigned_chars.
Qed.

Lemma parts_of_join (toks : list string) :
  Forall token toks -> parts_of (String.concat " " toks) = toks.
Proof. intros H. by rewrite parts_of_split, split_join. Qed.

(** C5. [parse_log_line] never raises. Its result is [None] exactly when
    the line does not split into six whitespace-separated tokens or when
    [int] rejects the first, fifth or sixth token; otherwise it is the
    record made of the tokens, the method in upper case. On lines written
    token by token this reads: six tokens whose numeric fields are decimal
    integers (within the digit limit of [int]) give the record of these
    values; any other number of tokens gives [None]; a numeric field with a
    character that is no digit, sign or underscore gives [None]. The last
    conjuncts are lines of the documented format and malformed ones. *)
Theorem parse_log_line_malformed_iff :
  (forall line : string,
     exists v : option record,
       parse_log_line line = Ok v
       /\ (v = None <->
           length (parts_of line) <> 6%nat
           \/ exists (i : nat) (tok : string),
                (i = 0 \/ i = 4 \/ i = 5)%nat
                /\ parts_of line !! i = Some tok
                /\ forall n : Z, Py.int tok <> Ok n)
       /\ (forall (p0 p1 p2 p3 p4 p5 : string) (f0 f4 f5 : Z),
             parts_of line = [p0; p1; p2; p3; p4; p5] ->
             Py.int p0 = Ok f0 -> Py.int p4 = Ok f4 -> Py.int p5 = Ok f5 ->
             v = Some (mkRecord f0 p1 (Py.upper p2) p3 f4 f5)))
  /\ (forall (ts st sz : Z) (ip_ m u : string),
        token ip_ -> token m -> token u ->
        Z.abs ts < 10 ^ 4300 -> Z.abs st < 10 ^ 4300 -> Z.abs sz < 10 ^ 4300 ->
        parse_log_line
          (String.concat " " [pretty ts; ip_; m; u; pretty st; pretty sz])
        = Ok (Some (mkRecord ts ip_ (Py.upper m) u st sz)))
  /\ (forall toks : list string,
        Forall token toks -> length toks <> 6%nat ->
        parse_log_line (String.concat " " toks) = Ok None)
  /\ (forall (toks : list string) (i : nat) (tok : string) (c : ascii),
        Forall token toks ->
        (i = 0 \/ i = 4 \/ i = 5)%nat -> toks !! i = Some tok ->
        Py.contains c tok = true -> numeric_char c = false ->
        parse_log_line (String.concat " " toks) = Ok None)
  /\ parse_log_line "1700000000 10.0.0.1 get /index.html 200 512"
     = Ok (Some (mkRecord 1700000000 "10.0.0.1" "GET" "/index.html" 200 512))
  /\ parse_log_line ("  1700000000   10.0.0.1 Post /a?b=c 404 0 " +:+ nl)
     = Ok (Some (mkRecord 1700000000 "10.0.0.1" "POST" "/a?b=c" 404 0))
  /\ parse_log_line "-5 a abcdefghijklmnopqrstuvwxyz-09 c +200 1_000"
     = Ok (Some (mkRecord (-5) "a" "ABCDEFGHIJKLMNOPQRSTUVWXYZ-09" "c" 200 1000))
  /\ parse_log_line "" = Ok None
  /\ parse_log_line "1700000000 10.0.0.1 GET /index.html 200" = Ok None
  /\ parse_log_line "1700000000 10.0.0.1 GET /index.html 200 512 extra" = Ok None
  /\ parse_log_line "17e8 10.0.0.1 GET /index.html 200 512" = Ok None
  /\ parse_log_line "1700000000 10.0.0.1 GET /index.html OK 512" = Ok None
  /\ parse_log_line "1700000000 10.0.0.1 GET /index.html 200 5.5" = Ok None
  /\ parse_log_line "1700000000 10.0.0.1 GET /index.html 200 -" = Ok None
  /\ parse_log_line
       ("1 a GET c 2 " +:+ String.concat "" (replicate 4301 "7"))
     = Ok None.
Proof.
  split_and!; [| | | |vm_compute; reflexivity..].
  - apply parse_log_line_cases.
  - intros ts st sz ip_ m u Hip Hm Hu Hts Hst Hsz.
    set (line := String.concat " " [pretty ts; ip_; m; u; pretty st; pretty sz]).
    destruct (parse_log_line_cases line) as (v & -> & _ & Hv). f_equal.
    apply (Hv (pretty ts) ip_ m u (pretty st) (pretty sz)).
    + apply parts_of_join.
      repeat first [apply Forall_nil_2 | apply Forall_cons_2];
        try assumption; apply pretty_Z_token.
    + by apply int_pretty.
    + by apply int_pretty.
    + by apply int_pretty.
  - intros toks Htoks Hlen.
    destruct (parse_log_line_cases (String.concat " " toks)) as (v & -> & Hv & _).
    f_equal. apply Hv. left. by rewrite parts_of_join.
  - intros toks i tok c Htoks Hi Htok Hc Hnum.
    destruct (parse_log_line_cases (String.concat " " toks)) as (v & -> & Hv & _).
    f_equal. apply Hv. right. exists i, tok. rewrite parts_of_join by done.
    split_and!; [done..|]. intros n Hn.
    destruct (int_chars _ _ Hn c Hc) as [Hd|Hw]; [congruence|].
    apply isspace_int_isspace in Hw.
    assert (token tok) as [_ Hsp].
    { eapply Forall_forall; [exact Htoks|]. by eapply list_elem_of_lookup_2. }
    rewrite (Hsp c Hc) in Hw. done.
Qed.
